(** * nRF Cloud webhook handler (src/index.js): model and verification

    The repository is one asynchronous function, [module.exports], run once
    per HTTP request by the hosting platform.  It reads [process.env],
    checks the request, verifies an HMAC signature over the raw body, parses
    the body as JSON and writes one document per telemetry message.

    The handler is embedded as a function in a small monad [js] that carries
    what the JavaScript code does besides computing a value: the calls it
    makes on the platform ([log], [error], the database client), the state
    of the document store, and exceptions.  The libraries the handler calls
    (Node's [crypto] and [JSON], the Appwrite SDK and the store behind it)
    are not part of the repository: they are the fields of
    the class [Platform], and every theorem holds for all its instances. *)

From Stdlib Require Import ZArith String Ascii List Bool SpecFloat.
From Stdlib.Strings Require Import Byte.
From Stdlib Require Import Decimal DecimalString.
From stdpp Require Import base option list gmap strings.

Local Open Scope Z_scope.
Set Warnings "-register-all".

(** ** JavaScript values

    [JSON.parse] yields exactly the values of [json]; a JavaScript number is
    an IEEE 754 double, [spec_float].  An object is the list of its own
    properties in insertion order, each key bound once.  [undefined] is not a
    JSON value and only arises from reading a property that is not there. *)

Inductive json : Type :=
| JNull
| JBool (b : bool)
| JNum (n : spec_float)
| JStr (s : string)
| JArr (items : list json)
| JObj (props : list (string * json)).

Inductive value : Type :=
| undefined
| of_json (j : json).

(** The own property [k] of an object literal. *)
Fixpoint own (props : list (string * json)) (k : string) : value :=
  match props with
  | [] => undefined
  | (k', v) :: rest => if String.eqb k' k then of_json v else own rest k
  end.

Definition has_own (props : list (string * json)) (k : string) : bool :=
  match own props k with undefined => false | of_json _ => true end.

(** JavaScript truthiness (ToBoolean): [undefined], [null], [false], zeros,
    NaN and the empty string are falsy, every object and array is truthy. *)
Definition truthy (v : value) : bool :=
  match v with
  | undefined => false
  | of_json JNull => false
  | of_json (JBool b) => b
  | of_json (JNum (S754_zero _)) => false
  | of_json (JNum S754_nan) => false
  | of_json (JNum _) => true
  | of_json (JStr s) => negb (String.eqb s EmptyString)
  | of_json (JArr _) => true
  | of_json (JObj _) => true
  end.

(** [process.env.X] and [req.headers[k]] are strings when set: the test
    [!x] of the source holds when the key is unset or bound to the empty
    string.  [if_truthy] returns the string the code goes on with. *)
Definition if_truthy (v : option string) : option string :=
  match v with
  | Some s => if String.eqb s EmptyString then None else Some s
  | None => None
  end.

(** [payload.event === 'verification']: strict equality with a string. *)
Definition is_verification (v : value) : bool :=
  match v with
  | of_json (JStr s) => String.eqb s "verification"
  | _ => false
  end.

(** ** Hexadecimal digests: [hmac.digest('hex')] *)

Definition hex_digit (n : N) : ascii :=
  match n with
  | 0%N => "0" | 1%N => "1" | 2%N => "2" | 3%N => "3"
  | 4%N => "4" | 5%N => "5" | 6%N => "6" | 7%N => "7"
  | 8%N => "8" | 9%N => "9" | 10%N => "a" | 11%N => "b"
  | 12%N => "c" | 13%N => "d" | 14%N => "e" | _ => "f"
  end%char.

Fixpoint hex (digest : list byte) : string :=
  match digest with
  | [] => EmptyString
  | b :: rest =>
      String (hex_digit (N.div (Byte.to_N b) 16))
        (String (hex_digit (N.modulo (Byte.to_N b) 16)) (hex rest))
  end.

(** ** The request, the response and the stored record

    [body] is the raw text of the request as it was received, the one the
    sender signed; header names are the keys of [headers] as the platform
    hands them over. *)

Record request : Type := {
  method : string;
  headers : gmap string string;
  body : string
}.

(** [res.send(text, status)]. *)
Record response : Type := {
  send_text : string;
  send_status : Z
}.

(** The fields map passed to [createDocument]. *)
Record document : Type := {
  deviceId : value;
  appId : value;
  timestamp : value;
  payload : value
}.

(** The configuration of [new Client().setEndpoint(e).setProject(p).setKey(k)]:
    the three environment values as read, unset ones being [undefined]. *)
Record client : Type := {
  endpoint : option string;
  project : option string;
  key : option string
}.

(** What the handler does to its surroundings, in the order it does it.
    [NewClient c] is the evaluation of lines 60-65 on the configuration [c],
    whether the SDK accepts it or throws. *)
Inductive event : Type :=
| Log (msg : string)
| Error (msg : string)
| NewClient (c : client)
| CreateDocument (databaseId collectionId documentId : string) (data : document).

(** Thrown values: a TypeError of the language, the rejection of a
    [createDocument] call, and the exception the SDK throws while the client
    is built.  [exn_message] is the [e.message] of the source. *)
Inductive exn : Type :=
| TypeError (msg : string)
| StoreError (msg : string)
| ClientError (msg : string).

Definition exn_message (e : exn) : string :=
  match e with TypeError m => m | StoreError m => m | ClientError m => m end.

Inductive completion (A : Type) : Type :=
| Normal (a : A)
| Throw (e : exn).
Arguments Normal {A} a.
Arguments Throw {A} e.

(** [Number.prototype.toString] for an array length. *)
Definition nat_to_string (n : nat) : string :=
  NilEmpty.string_of_uint (Nat.to_uint n).

(** [Array.prototype.join] with the comma, over items converted by [f]:
    a [null] item prints as nothing, and a conversion that throws makes the
    join throw. *)
Section Join.

Variable f : json -> option string.

Definition item_text (x : json) : option string :=
  match x with
  | JNull => Some EmptyString
  | _ => f x
  end.

Fixpoint join_items (l : list json) : option string :=
  match l with
  | [] => Some EmptyString
  | x :: rest =>
      match item_text x with
      | None => None
      | Some s =>
          match rest with
          | [] => Some s
          | _ :: _ =>
              match join_items rest with
              | None => None
              | Some r => Some (s +:+ "," +:+ r)
              end
          end
      end
  end.

End Join.

(** ** The handler

    [Platform] gathers the collaborators that live outside the repository;
    the handler is defined for any of them. *)

Declare Scope js_scope.

Class Platform : Type := {
  (** [Number.prototype.toString] on a double (used by template literals). *)
  Number_toString : spec_float -> string;
  (** [crypto.createHmac('sha256', key).update(data).digest()]. *)
  hmac_sha256 : string -> string -> list byte;
  (** A SHA-256 digest has 32 bytes. *)
  hmac_sha256_length : forall key data, length (hmac_sha256 key data) = 32%nat;
  (** [JSON.parse]: the parsed value, or the message of the SyntaxError. *)
  JSON_parse : string -> json + string;
  (** [JSON.stringify] on a JSON value. *)
  JSON_stringify : json -> string;
  (** [new Client().setEndpoint(e).setProject(p).setKey(k)] followed by
      [new Databases(client)]: [Some msg] when the SDK throws an exception
      whose message is [msg] (it refuses an endpoint that is not a URL),
      [None] when the client is built. *)
  new_Client : client -> option string;
  (** The document store behind the SDK, and one [createDocument] call on
      it: the next store, and [Some msg] when the call rejects with an error
      whose message is [msg], [None] when it resolves. *)
  store : Type;
  createDocument :
    client -> store -> string -> string -> string -> document ->
    store * option string
}.

Section Handler.

Context {P : Platform}.

(** *** The effect monad

    A computation starts from a store and yields how it completes, the
    events it caused in order, and the store it leaves. *)

Definition js (A : Type) : Type := store -> completion A * list event * store.

Definition ret {A} (a : A) : js A := fun s => (Normal a, [], s).

Definition throw {A} (e : exn) : js A := fun s => (Throw e, [], s).

Definition bind {A B} (m : js A) (k : A -> js B) : js B :=
  fun s =>
    match m s with
    | (Normal a, t, s') =>
        match k a s' with (r, t', s'') => (r, t ++ t', s'') end
    | (Throw e, t, s') => (Throw e, t, s')
    end.

(** [try { m } catch (e) { h e }]. *)
Definition try_catch {A} (m : js A) (h : exn -> js A) : js A :=
  fun s =>
    match m s with
    | (Normal a, t, s') => (Normal a, t, s')
    | (Throw e, t, s') =>
        match h e s' with (r, t', s'') => (r, t ++ t', s'') end
    end.

Definition emit (ev : event) : js unit := fun s => (Normal tt, [ev], s).

Notation "x <- m ;; k" := (bind m (fun x => k))
  (at level 100, m at next level, k at level 200, right associativity) : js_scope.
Notation "m ;; k" := (bind m (fun _ => k))
  (at level 100, k at level 200, right associativity) : js_scope.
Local Open Scope js_scope.

Definition log (msg : string) : js unit := emit (Log msg).
Definition error (msg : string) : js unit := emit (Error msg).
Definition res_send (text : string) (status : Z) : js response :=
  ret {| send_text := text; send_status := status |}.

(** *** Property reads and string conversion *)

(** [v.k] for the property names the handler reads ([event], [token],
    [messages], [device_id], [appId], [ts], [payload]): none of them is
    defined on a built-in prototype, so the read is the own property of an
    object, [undefined] on any other value, and a TypeError on [null]. *)
Definition Get (v : json) (k : string) : js value :=
  match v with
  | JNull =>
      throw (TypeError
        ("Cannot read properties of null (reading '" +:+ k +:+ "')"))
  | JObj props => ret (own props k)
  | _ => ret undefined
  end.

(** ToString on a JSON value, [None] for the TypeError "Cannot convert
    object to primitive value".  An array is joined with commas
    ([join_items]).  A plain object prints through
    [Object.prototype.toString] unless it has an own property [toString]:
    that value, coming from JSON, is not callable, and
    [Object.prototype.valueOf] returns the object itself, so the conversion
    throws. *)
Fixpoint ToString (v : json) : option string :=
  match v with
  | JNull => Some "null"
  | JBool true => Some "true"
  | JBool false => Some "false"
  | JNum n => Some (Number_toString n)
  | JStr s => Some s
  | JArr items => join_items ToString items
  | JObj props =>
      if has_own props "toString" then None else Some "[object Object]"
  end.

(** ToString on any value the handler holds. *)
Definition to_text (v : value) : option string :=
  match v with
  | undefined => Some "undefined"
  | of_json j => ToString j
  end.

(** A substitution [${v}] of a template literal. *)
Definition template (v : value) : js string :=
  match to_text v with
  | Some s => ret s
  | None => throw (TypeError "Cannot convert object to primitive value")
  end.

(** [JSON.stringify(v)]: [undefined] stays [undefined]. *)
Definition stringify (v : value) : value :=
  match v with
  | undefined => undefined
  | of_json j => of_json (JStr (JSON_stringify j))
  end.

(** [a || b]. *)
Definition or_else (a b : value) : value := if truthy a then a else b.

(** *** The store call: [await databases.createDocument(...)] *)

Definition create_document (databases : client)
    (databaseId collectionId documentId : string) (data : document) : js unit :=
  fun s =>
    match createDocument databases s databaseId collectionId documentId data with
    | (s', None) =>
        (Normal tt, [CreateDocument databaseId collectionId documentId data], s')
    | (s', Some msg) =>
        (Throw (StoreError msg),
         [CreateDocument databaseId collectionId documentId data], s')
    end.

(** *** The body of the loop (lines 68-92) *)

Definition store_message (databases : client) (databaseId collectionId : string)
    (message : json) : js unit :=
  try_catch
    (deviceId <- Get message "device_id" ;;
     messageType <- Get message "appId" ;;
     timestamp <- Get message "ts" ;;
     payloadData <- Get message "payload" ;;
     create_document databases databaseId collectionId "unique()"
       {| deviceId := deviceId;
          appId := messageType;
          timestamp := timestamp;
          payload := stringify payloadData |} ;;
     d <- template deviceId ;;
     log ("Successfully stored message from device: " +:+ d))
    (fun e =>
       device <- Get message "device_id" ;;
       d <- template (or_else device (of_json (JStr "unknown"))) ;;
       error ("Database error for message from " +:+ d +:+ ": " +:+ exn_message e)).

(** [for (const message of messages) { ... }]. *)
Fixpoint for_of (messages : list json) (f : json -> js unit) : js unit :=
  match messages with
  | [] => ret tt
  | message :: rest => f message ;; for_of rest f
  end.

(** *** Lines 55-99: storage and the final response *)

(** Lines 60-65: the client is configured from the environment as it is,
    outside every [try]: what the SDK throws there leaves the handler. *)
Definition client_of (env : gmap string string) : client :=
  {| endpoint := env !! "APPWRITE_ENDPOINT";
     project := env !! "APPWRITE_PROJECT_ID";
     key := env !! "APPWRITE_API_KEY" |}.

Definition new_client (env : gmap string string) : js client :=
  emit (NewClient (client_of env)) ;;
  match new_Client (client_of env) with
  | Some msg => throw (ClientError msg)
  | None => ret (client_of env)
  end.

Definition store_messages (env : gmap string string)
    (databaseId collectionId : string) (payload : json) : js response :=
  messages <- Get payload "messages" ;;
  match messages with
  | of_json (JArr (m :: rest)) =>
      log ("Processing " +:+ nat_to_string (length (m :: rest)) +:+ " messages.") ;;
      databases <- new_client env ;;
      for_of (m :: rest) (store_message databases databaseId collectionId)
  | _ => log "Payload contains no messages or is of an unexpected format."
  end ;;
  res_send "Webhook processing complete" 200.

(** *** Lines 39-53: parsing and the verification handshake *)

Definition classify (env : gmap string string)
    (databaseId collectionId : string) (body : string) : js response :=
  match JSON_parse body with
  | inr msg =>
      error ("Invalid JSON payload: " +:+ msg) ;;
      res_send "Invalid JSON" 400
  | inl payload =>
      event <- Get payload "event" ;;
      if is_verification event then
        token <- Get payload "token" ;;
        t <- template token ;;
        log ("Received verification request with token: " +:+ t +:+
             ". Please confirm in nRF Cloud portal.") ;;
        res_send "Verification request acknowledged" 200
      else store_messages env databaseId collectionId payload
  end.

(** *** The exported function *)

Definition handler (env : gmap string string) (req : request) : js response :=
  let webhookSecret := env !! "NRFCLOUD_WEBHOOK_SECRET" in
  let databaseId := env !! "DATABASE_ID" in
  let collectionId := env !! "COLLECTION_ID" in
  match if_truthy webhookSecret, if_truthy databaseId, if_truthy collectionId with
  | Some webhookSecret, Some databaseId, Some collectionId =>
      if negb (String.eqb (method req) "POST") then
        res_send "Method Not Allowed" 405
      else
        match if_truthy (headers req !! "x-nrfcloud-signature") with
        | None =>
            error "Missing X-NRFCLOUD-SIGNATURE header. Rejecting request." ;;
            res_send "Unauthorized: Missing signature" 401
        | Some nrfSignature =>
            let calculatedSignature := hex (hmac_sha256 webhookSecret (body req)) in
            if negb (String.eqb calculatedSignature nrfSignature) then
              error ("Signature mismatch. Calculated: " +:+ calculatedSignature +:+
                     ", Received: " +:+ nrfSignature) ;;
              res_send "Unauthorized: Invalid signature" 401
            else
              log "Signature verified successfully." ;;
              classify env databaseId collectionId (body req)
        end
  | _, _, _ =>
      error "Missing required environment variables (NRFCLOUD_WEBHOOK_SECRET, DATABASE_ID, or COLLECTION_ID)." ;;
      res_send "Internal Server Error" 500
  end.

End Handler.

(** ** A platform to run the handler on

    Stand-ins for the libraries, used to evaluate the handler on concrete
    requests: a keyed checksum in place of HMAC-SHA256, a reader and a
    printer for a fragment of JSON (no string escapes, whole numbers only),
    and a store that counts the calls made on it and rejects those whose
    number is listed.  The theorems below do not depend on them. *)

Definition dquote : ascii := ascii_of_nat 34.
Definition backslash : ascii := ascii_of_nat 92.

(** The text of a JSON string literal holding [s]. *)
Definition quoted (s : string) : string :=
  String dquote (s +:+ String dquote EmptyString).

Definition is_space (c : ascii) : bool :=
  Ascii.eqb c " " || Ascii.eqb c (ascii_of_nat 10) ||
  Ascii.eqb c (ascii_of_nat 13) || Ascii.eqb c (ascii_of_nat 9).

Definition digit_of (c : ascii) : option Z :=
  let n := Z.of_nat (nat_of_ascii c) in
  if (48 <=? n) && (n <=? 57) then Some (n - 48) else None.

Fixpoint skip_space (s : string) : string :=
  match s with
  | String c rest => if is_space c then skip_space rest else s
  | EmptyString => s
  end.

Fixpoint read_string (s : string) : option (string * string) :=
  match s with
  | EmptyString => None
  | String c rest =>
      if Ascii.eqb c dquote then Some (EmptyString, rest)
      else if Ascii.eqb c backslash then None
      else match read_string rest with
           | Some (x, rest') => Some (String c x, rest')
           | None => None
           end
  end.

Fixpoint read_digits (acc : Z) (s : string) : Z * string :=
  match s with
  | String c rest =>
      match digit_of c with
      | Some d => read_digits (10 * acc + d) rest
      | None => (acc, s)
      end
  | EmptyString => (acc, s)
  end.

(** The double nearest to a whole number. *)
Definition double_of_Z (z : Z) : spec_float := binary_normalize 53 1024 z 0 false.

Fixpoint read_value (fuel : nat) (s : string) : option (json * string) :=
  match fuel with
  | O => None
  | S fuel =>
      match skip_space s with
      | String "n" (String "u" (String "l" (String "l" rest))) => Some (JNull, rest)
      | String "t" (String "r" (String "u" (String "e" rest))) => Some (JBool true, rest)
      | String "f" (String "a" (String "l" (String "s" (String "e" rest)))) =>
          Some (JBool false, rest)
      | String "[" rest =>
          match skip_space rest with
          | String "]" rest' => Some (JArr [], rest')
          | _ =>
              match read_items fuel rest with
              | Some (items, rest') => Some (JArr items, rest')
              | None => None
              end
          end
      | String "{" rest =>
          match skip_space rest with
          | String "}" rest' => Some (JObj [], rest')
          | _ =>
              match read_members fuel rest with
              | Some (props, rest') => Some (JObj props, rest')
              | None => None
              end
          end
      | String c rest =>
          if Ascii.eqb c dquote then
            match read_string rest with
            | Some (x, rest') => Some (JStr x, rest')
            | None => None
            end
          else
            match digit_of c with
            | Some d =>
                match read_digits d rest with
                | (z, rest') => Some (JNum (double_of_Z z), rest')
                end
            | None => None
            end
      | EmptyString => None
      end
  end
with read_items (fuel : nat) (s : string) : option (list json * string) :=
  match fuel with
  | O => None
  | S fuel =>
      match read_value fuel s with
      | Some (x, rest) =>
          match skip_space rest with
          | String "," rest' =>
              match read_items fuel rest' with
              | Some (xs, rest'') => Some (x :: xs, rest'')
              | None => None
              end
          | String "]" rest' => Some ([x], rest')
          | _ => None
          end
      | None => None
      end
  end
with read_members (fuel : nat) (s : string) : option (list (string * json) * string) :=
  match fuel with
  | O => None
  | S fuel =>
      match skip_space s with
      | String c rest =>
          if Ascii.eqb c dquote then
            match read_string rest with
            | Some (k, rest1) =>
                match skip_space rest1 with
                | String ":" rest2 =>
                    match read_value fuel rest2 with
                    | Some (x, rest3) =>
                        match skip_space rest3 with
                        | String "," rest4 =>
                            match read_members fuel rest4 with
                            | Some (xs, rest5) =>
                                (* a repeated key keeps its last value *)
                                Some (if has_own xs k then xs else (k, x) :: xs, rest5)
                            | None => None
                            end
                        | String "}" rest4 => Some ([(k, x)], rest4)
                        | _ => None
                        end
                    | None => None
                    end
                | _ => None
                end
            | None => None
            end
          else None
      | EmptyString => None
      end
  end.

Definition test_parse (text : string) : json + string :=
  match read_value (2 * String.length text + 2) text with
  | Some (v, rest) =>
      match skip_space rest with
      | EmptyString => inl v
      | _ => inr "Unexpected non-whitespace character after JSON"
      end
  | None => inr "Unexpected token"
  end.

Definition Z_to_string (z : Z) : string :=
  NilEmpty.string_of_int (Z.to_int z).

(** Whole doubles print as integers; the stand-in prints no fraction. *)
Definition test_Number_toString (n : spec_float) : string :=
  match n with
  | S754_zero _ => "0"
  | S754_infinity false => "Infinity"
  | S754_infinity true => "-Infinity"
  | S754_nan => "NaN"
  | S754_finite s m e =>
      let z := if (0 <=? e) then Z.pos m * 2 ^ e else Z.pos m / 2 ^ (- e) in
      Z_to_string (if s then - z else z)
  end.

Fixpoint test_stringify (v : json) : string :=
  match v with
  | JNull => "null"
  | JBool true => "true"
  | JBool false => "false"
  | JNum n => test_Number_toString n
  | JStr s => quoted s
  | JArr items =>
      "[" +:+
      (fix go (l : list json) : string :=
         match l with
         | [] => EmptyString
         | x :: rest =>
             test_stringify x +:+
             match rest with [] => EmptyString | _ :: _ => "," +:+ go rest end
         end) items +:+ "]"
  | JObj props =>
      "{" +:+
      (fix go (l : list (string * json)) : string :=
         match l with
         | [] => EmptyString
         | (k, x) :: rest =>
             quoted k +:+ ":" +:+ test_stringify x +:+
             match rest with [] => EmptyString | _ :: _ => "," +:+ go rest end
         end) props +:+ "}"
  end.

Fixpoint char_sum (s : string) : nat :=
  match s with
  | EmptyString => O
  | String c rest => (nat_of_ascii c + char_sum rest)%nat
  end.

Definition byte_of_nat (n : nat) : byte :=
  match Byte.of_nat (n mod 256) with Some b => b | None => x00 end.

(** A keyed checksum of 32 bytes. *)
Definition test_hmac (secret data : string) : list byte :=
  map (fun i => byte_of_nat ((i + 1) * char_sum secret + char_sum data + i))
      (seq 0 32).

Lemma test_hmac_length secret data : length (test_hmac secret data) = 32%nat.
Proof. unfold test_hmac. rewrite length_map, length_seq. reflexivity. Qed.

(** The store: the documents written so far and the number of calls made. *)
Record test_store : Type := {
  calls : nat;
  documents : list document
}.

(** Call number [calls] (from 0) rejects when [failing] lists it. *)
Definition test_createDocument (failing : list nat) (c : client) (s : test_store)
    (databaseId collectionId documentId : string) (data : document)
    : test_store * option string :=
  if existsb (Nat.eqb (calls s)) failing then
    ({| calls := S (calls s); documents := documents s |}, Some "Server Error")
  else
    ({| calls := S (calls s); documents := documents s ++ [data] |}, None).

(** The SDK's [setEndpoint]: the endpoint has to be a non-empty string
    that starts with [http://] or [https://]. *)
Definition test_new_Client (c : client) : option string :=
  match if_truthy (endpoint c) with
  | None => Some "Endpoint must be a valid string"
  | Some e =>
      if String.prefix "http://" e || String.prefix "https://" e then None
      else Some ("Invalid endpoint URL: " +:+ e)
  end.

Definition test_platform (failing : list nat) : Platform := {|
  Number_toString := test_Number_toString;
  hmac_sha256 := test_hmac;
  hmac_sha256_length := test_hmac_length;
  JSON_parse := test_parse;
  JSON_stringify := test_stringify;
  new_Client := test_new_Client;
  store := test_store;
  createDocument := test_createDocument failing
|}.

Definition empty_store : test_store := {| calls := O; documents := [] |}.

(** A deployment with the three required values and the client's three. *)
Definition test_env : gmap string string :=
  <["NRFCLOUD_WEBHOOK_SECRET" := "s3cret"]>
  (<["DATABASE_ID" := "db1"]>
  (<["COLLECTION_ID" := "telemetry"]>
  (<["APPWRITE_ENDPOINT" := "https://cloud.appwrite.io/v1"]>
  (<["APPWRITE_PROJECT_ID" := "proj"]>
  (<["APPWRITE_API_KEY" := "k3y"]> ∅))))).

(** A deployment with the three required values only: it passes the
    Config/Env gate and leaves the client's three unset. *)
Definition bare_env : gmap string string :=
  <["NRFCLOUD_WEBHOOK_SECRET" := "s3cret"]>
  (<["DATABASE_ID" := "db1"]>
  (<["COLLECTION_ID" := "telemetry"]> ∅)).

(** A POST of [text] signed with the secret of [test_env]. *)
Definition signed_post (text : string) : request := {|
  method := "POST";
  headers := {["x-nrfcloud-signature" := hex (test_hmac "s3cret" text)]};
  body := text
|}.


(** Requests to run the handler on. *)

Definition member (k text : string) : string := quoted k +:+ ":" +:+ text.

Definition get_request : request :=
  {| method := "GET"; headers := ∅; body := EmptyString |}.

(** [{"event":"verification","token":"T"}] *)
Definition verification_body : string :=
  "{" +:+ member "event" (quoted "verification") +:+ "," +:+
  member "token" (quoted "T") +:+ "}".

Definition message_text (device app ts data : string) : string :=
  "{" +:+ member "device_id" (quoted device) +:+ "," +:+
  member "appId" (quoted app) +:+ "," +:+
  member "ts" (quoted ts) +:+ "," +:+
  member "payload" data +:+ "}".

(** Two well-formed messages. *)
Definition batch_body : string :=
  "{" +:+ member "messages"
    ("[" +:+ message_text "d1" "TEMP" "2024-01-01T00:00:00Z" ("{" +:+ member "v" "21" +:+ "}")
     +:+ "," +:+ message_text "d2" "GNSS" "2024-01-01T00:00:05Z" "[1,2]" +:+ "]")
  +:+ "}".

(** [{"messages":[null]}] *)
Definition null_message_body : string := "{" +:+ member "messages" "[null]" +:+ "}".

(** [{"messages":[]}] *)
Definition empty_batch_body : string := "{" +:+ member "messages" "[]" +:+ "}".

(** [{"event":"verification","token":{"toString":0}}] *)
Definition shadowed_token_body : string :=
  "{" +:+ member "event" (quoted "verification") +:+ "," +:+
  member "token" ("{" +:+ member "toString" "0" +:+ "}") +:+ "}".

(** A POST that carries the right signature under the upper-case name. *)
Definition uppercase_post (text : string) : request := {|
  method := "POST";
  headers := {["X-NRFCLOUD-SIGNATURE" := hex (test_hmac "s3cret" text)]};
  body := text
|}.

(** A POST with a signature that is not the body's. *)
Definition forged_post (text : string) : request := {|
  method := "POST";
  headers := {["x-nrfcloud-signature" := "00ff"]};
  body := text
|}.

(** The payload and the messages of [batch_body], as the reader yields them. *)
Definition batch_payload : json :=
  Eval vm_compute in
    match test_parse batch_body with inl v => v | inr _ => JNull end.

Definition batch_messages : list json :=
  Eval vm_compute in
    match batch_payload with
    | JObj props =>
        match own props "messages" with of_json (JArr l) => l | _ => [] end
    | _ => []
    end.

Definition first_message : json := Eval vm_compute in hd JNull batch_messages.

(** A batch whose second item is [null]: one message, [null], one message. *)
Definition broken_batch_body : string :=
  "{" +:+ member "messages"
    ("[" +:+ message_text "d1" "TEMP" "2024-01-01T00:00:00Z" ("{" +:+ member "v" "21" +:+ "}")
     +:+ ",null," +:+ message_text "d2" "GNSS" "2024-01-01T00:00:05Z" "[1,2]" +:+ "]")
  +:+ "}".

Definition broken_batch_payload : json :=
  Eval vm_compute in
    match test_parse broken_batch_body with inl v => v | inr _ => JNull end.

Definition second_message : json := Eval vm_compute in nth 1 batch_messages JNull.

(** A batch whose first message has a [device_id] that does not convert to
    a string, [{"toString":0}], followed by a well-formed message. *)
Definition unprintable_batch_body : string :=
  "{" +:+ member "messages"
    ("[{" +:+ member "device_id" ("{" +:+ member "toString" "0" +:+ "}") +:+ "," +:+
     member "appId" (quoted "TEMP") +:+ "," +:+
     member "ts" (quoted "2024-01-01T00:00:00Z") +:+ "," +:+
     member "payload" ("{" +:+ member "v" "21" +:+ "}") +:+ "}"
     +:+ "," +:+ message_text "d2" "GNSS" "2024-01-01T00:00:05Z" "[1,2]" +:+ "]")
  +:+ "}".

Definition unprintable_batch_payload : json :=
  Eval vm_compute in
    match test_parse unprintable_batch_body with inl v => v | inr _ => JNull end.

Definition unprintable_message : json :=
  Eval vm_compute in
    match unprintable_batch_payload with
    | JObj props =>
        match own props "messages" with of_json (JArr (m :: _)) => m | _ => JNull end
    | _ => JNull
    end.

(** The deployment and a signed request with things the handler does not
    read: another variable, another header. *)
Definition noisy_env : gmap string string := <["PATH" := "/usr/bin"]> test_env.

Definition noisy_post (text : string) : request := {|
  method := "POST";
  headers := <["content-type" := "application/json"]> (headers (signed_post text));
  body := text
|}.

(** A POST whose signature header is there and empty. *)
Definition blank_signature_post (text : string) : request := {|
  method := "POST";
  headers := {["x-nrfcloud-signature" := EmptyString]};
  body := text
|}.

(** A POST that carries the digest of [batch_body] in upper case. *)
Definition uppercase_digest_post : request := {|
  method := "POST";
  headers := {["x-nrfcloud-signature" :=
    "BF1469BE1368BD1267BC1166BB1065BA0F64B90E63B80D62B70C61B60B60B50A"]};
  body := batch_body
|}.

(** ** Vocabulary of the properties *)

Definition outcome {A S : Type} (r : completion A * list event * S) : completion A :=
  r.1.1.
Definition events {A S : Type} (r : completion A * list event * S) : list event :=
  r.1.2.
Definition final_store {A S : Type} (r : completion A * list event * S) : S := r.2.

(** The handler resolving with [res.send(text, status)]. *)
Definition responds (text : string) (status : Z) : completion response :=
  Normal {| send_text := text; send_status := status |}.

(** An environment value or header the code takes as there: set, and not
    to the empty string (the code tests [!x]). *)
Definition present (v : option string) (s : string) : Prop :=
  v = Some s /\ s <> EmptyString.

(** The Config/Env gate lets the request through. *)
Definition configured (env : gmap string string) (secret db coll : string) : Prop :=
  present (env !! "NRFCLOUD_WEBHOOK_SECRET") secret /\
  present (env !! "DATABASE_ID") db /\
  present (env !! "COLLECTION_ID") coll.

(** The env, method and signature gates all let the request through. *)
Definition authentic {P : Platform} (env : gmap string string) (req : request)
    (secret db coll : string) : Prop :=
  configured env secret db coll /\
  method req = "POST" /\
  headers req !! "x-nrfcloud-signature" = Some (hex (hmac_sha256 secret (body req))).

(** [message.k] read off the parsed value, when [message] is not [null]. *)
Definition field (message : json) (k : string) : value :=
  match message with
  | JObj props => own props k
  | _ => undefined
  end.

(** [payload.messages] is an array with at least one item. *)
Definition has_messages (payload : json) : bool :=
  match field payload "messages" with
  | of_json (JArr (_ :: _)) => true
  | _ => false
  end.

(** The three values the Config/Env gate requires, and the three the
    client is built from. *)
Definition required_variables : list string :=
  ["NRFCLOUD_WEBHOOK_SECRET"; "DATABASE_ID"; "COLLECTION_ID"]%string.
Definition appwrite_variables : list string :=
  ["APPWRITE_ENDPOINT"; "APPWRITE_PROJECT_ID"; "APPWRITE_API_KEY"]%string.

(** The response of the Config/Env gate: 500 and one error line. *)
Definition env_rejection {S : Type} (s : S) : completion response * list event * S :=
  (responds "Internal Server Error" 500,
   [Error "Missing required environment variables (NRFCLOUD_WEBHOOK_SECRET, DATABASE_ID, or COLLECTION_ID)."],
   s).

(** The StoredRecord of a message. *)
Definition document_of {P : Platform} (message : json) : document :=
  {| deviceId := field message "device_id";
     appId := field message "appId";
     timestamp := field message "ts";
     payload := stringify (field message "payload") |}.

(** A Message of the data model: an object whose [device_id], [appId] and
    [ts] are strings and which has a [payload]. *)
Definition well_formed (message : json) : bool :=
  match message with
  | JObj props =>
      match own props "device_id", own props "appId", own props "ts",
            own props "payload" with
      | of_json (JStr _), of_json (JStr _), of_json (JStr _), of_json _ => true
      | _, _, _, _ => false
      end
  | _ => false
  end.

(** What the catch block prints for a message: [message.device_id || 'unknown']. *)
Definition device_label {P : Platform} (message : json) : option string :=
  to_text (or_else (field message "device_id") (of_json (JStr "unknown"))).

(** A message the loop body can log about: not [null], and its [device_id]
    converts to a string (it is absent, a string, any other primitive, or an
    object or array that does not redefine [toString]). *)
Definition loggable {P : Platform} (message : json) : bool :=
  match message with
  | JNull => false
  | _ => match to_text (field message "device_id") with Some _ => true | None => false end
  end.

(** The store after the writes of [docs], made one after the other. *)
Fixpoint store_after {P : Platform} (c : client) (db coll : string) (s : store)
    (docs : list document) : store :=
  match docs with
  | [] => s
  | d :: rest => store_after c db coll (createDocument c s db coll "unique()" d).1 rest
  end.

(** Every write of [docs], made one after the other from [s], resolves. *)
Fixpoint writes_succeed {P : Platform} (c : client) (db coll : string) (s : store)
    (docs : list document) : Prop :=
  match docs with
  | [] => True
  | d :: rest =>
      (createDocument c s db coll "unique()" d).2 = None /\
      writes_succeed c db coll (createDocument c s db coll "unique()" d).1 rest
  end.

(** The [createDocument] calls of a run, in order. *)
Fixpoint created (t : list event) : list (string * string * string * document) :=
  match t with
  | [] => []
  | CreateDocument db coll id d :: rest => (db, coll, id, d) :: created rest
  | _ :: rest => created rest
  end.

(** The events of one pass through the loop body, for a message that is
    [loggable]: the call, then the success log or the error log. *)
Definition message_events {P : Platform} (c : client) (db coll : string) (s : store)
    (message : json) : list event :=
  CreateDocument db coll "unique()" (document_of message) ::
  match (createDocument c s db coll "unique()" (document_of message)).2 with
  | None =>
      match to_text (field message "device_id") with
      | Some d => [Log ("Successfully stored message from device: " +:+ d)]
      | None => []
      end
  | Some msg =>
      match device_label message with
      | Some d => [Error ("Database error for message from " +:+ d +:+ ": " +:+ msg)]
      | None => []
      end
  end.

Fixpoint loop_events {P : Platform} (c : client) (db coll : string) (s : store)
    (messages : list json) : list event :=
  match messages with
  | [] => []
  | m :: rest =>
      message_events c db coll s m ++
      loop_events c db coll (createDocument c s db coll "unique()" (document_of m)).1 rest
  end.

(** The [device_id] of a well-formed message. *)
Definition device_name (message : json) : string :=
  match field message "device_id" with
  | of_json (JStr d) => d
  | _ => EmptyString
  end.

(** What a pass through the loop body leaves behind when the write
    resolves: the call, then the success line. *)
Definition stored_events {P : Platform} (db coll : string) (message : json) : list event :=
  [CreateDocument db coll "unique()" (document_of message);
   Log ("Successfully stored message from device: " +:+ device_name message)].

(** The arguments of the call made for a message. *)
Definition call_of {P : Platform} (db coll : string) (message : json)
    : string * string * string * document :=
  (db, coll, "unique()"%string, document_of message).

(** Events other than the construction of the client. *)
Definition not_client (e : event) : Prop :=
  match e with NewClient _ => False | _ => True end.

(** Two environments that agree except on the client's three variables. *)
Definition agree_but_appwrite (env env' : gmap string string) : Prop :=
  forall k, ~ In k appwrite_variables -> env' !! k = env !! k.

(** A value whose conversion to a string throws: an object with an own
    property [toString], or an array that holds such a value. *)
Fixpoint shadows_toString (j : json) : bool :=
  match j with
  | JObj props => has_own props "toString"
  | JArr items => existsb shadows_toString items
  | _ => false
  end.

(** The characters [digest('hex')] is made of. *)
Definition is_lower_hex (c : ascii) : bool :=
  existsb (Ascii.eqb c) (list_ascii_of_string "0123456789abcdef").

(** The response table of the interface. *)
Definition response_table : list (string * Z) :=
  [("Internal Server Error", 500);
   ("Method Not Allowed", 405);
   ("Unauthorized: Missing signature", 401);
   ("Unauthorized: Invalid signature", 401);
   ("Invalid JSON", 400);
   ("Verification request acknowledged", 200);
   ("Webhook processing complete", 200)]%string.

(** A run that ends with a response of the table, with a TypeError thrown
    out of the handler, or with the exception the SDK throws on the
    configuration [c]; a store error never leaves the loop. *)
Definition in_table_or_thrown {P : Platform} {S : Type} (c : client)
    (r : completion response * list event * S) : Prop :=
  match outcome r with
  | Normal resp => In (send_text resp, send_status resp) response_table
  | Throw (TypeError _) => True
  | Throw (StoreError _) => False
  | Throw (ClientError msg) => new_Client c = Some msg
  end.

(** The store after a list of calls, made one after the other. *)
Fixpoint apply_calls {P : Platform} (c : client) (s : store)
    (calls : list (string * string * string * document)) : store :=
  match calls with
  | [] => s
  | (db, coll, id, d) :: rest => apply_calls c (createDocument c s db coll id d).1 rest
  end.

Definition is_client (e : event) : bool :=
  match e with NewClient _ => true | _ => false end.

(** What the loop body throws on a message it cannot log about: the read of
    [device_id] on [null], or the conversion of a [device_id] that redefines
    [toString]. *)
Definition thrown_by (message : json) : exn :=
  match message with
  | JNull => TypeError "Cannot read properties of null (reading 'device_id')"
  | _ => TypeError "Cannot convert object to primitive value"
  end.

(** The events of a pass through the loop body that throws: nothing on
    [null], the call alone on any other message. *)
Definition aborted_events {P : Platform} (db coll : string) (message : json) : list event :=
  match message with
  | JNull => []
  | _ => [CreateDocument db coll "unique()" (document_of message)]
  end.

(** The store after a pass through the loop body. *)
Definition store_step {P : Platform} (c : client) (db coll : string) (s : store)
    (message : json) : store :=
  match message with
  | JNull => s
  | _ => (createDocument c s db coll "unique()" (document_of message)).1
  end.

(** *** The routes through the handler

    [classified] lists the ways the classifier and the writer (lines 39-99)
    can end on a request body, [handled] the ways the whole handler can:
    one constructor per exit of the source.  [handler_handled] below shows
    that every run is one of them. *)

Inductive classified {P : Platform} (env : gmap string string) (db coll text : string)
    (s : store) : completion response * list event * store -> Prop :=
| classified_invalid msg :
    JSON_parse text = inr msg ->
    classified env db coll text s
      (responds "Invalid JSON" 400, [Error ("Invalid JSON payload: " +:+ msg)], s)
| classified_null :
    JSON_parse text = inl JNull ->
    classified env db coll text s
      (Throw (TypeError "Cannot read properties of null (reading 'event')"), [], s)
| classified_verification v t :
    JSON_parse text = inl v ->
    is_verification (field v "event") = true ->
    to_text (field v "token") = Some t ->
    classified env db coll text s
      (responds "Verification request acknowledged" 200,
       [Log ("Received verification request with token: " +:+ t +:+
             ". Please confirm in nRF Cloud portal.")], s)
| classified_token_throws v :
    JSON_parse text = inl v ->
    is_verification (field v "event") = true ->
    to_text (field v "token") = None ->
    classified env db coll text s
      (Throw (TypeError "Cannot convert object to primitive value"), [], s)
| classified_no_messages v :
    JSON_parse text = inl v ->
    v <> JNull ->
    is_verification (field v "event") = false ->
    has_messages v = false ->
    classified env db coll text s
      (responds "Webhook processing complete" 200,
       [Log "Payload contains no messages or is of an unexpected format."], s)
| classified_client_throws v m rest msg :
    JSON_parse text = inl v ->
    is_verification (field v "event") = false ->
    field v "messages" = of_json (JArr (m :: rest)) ->
    new_Client (client_of env) = Some msg ->
    classified env db coll text s
      (Throw (ClientError msg),
       [Log ("Processing " +:+ nat_to_string (length (m :: rest)) +:+ " messages.");
        NewClient (client_of env)], s)
| classified_batch v m rest o t s' :
    JSON_parse text = inl v ->
    is_verification (field v "event") = false ->
    field v "messages" = of_json (JArr (m :: rest)) ->
    new_Client (client_of env) = None ->
    for_of (m :: rest) (store_message (client_of env) db coll) s = (o, t, s') ->
    classified env db coll text s
      (match o with
       | Normal _ => responds "Webhook processing complete" 200
       | Throw e => Throw e
       end,
       Log ("Processing " +:+ nat_to_string (length (m :: rest)) +:+ " messages.")
       :: NewClient (client_of env) :: t, s').

Inductive handled {P : Platform} (env : gmap string string) (req : request) (s : store)
    : completion response * list event * store -> Prop :=
| handled_env :
    if_truthy (env !! "NRFCLOUD_WEBHOOK_SECRET") = None \/
    if_truthy (env !! "DATABASE_ID") = None \/
    if_truthy (env !! "COLLECTION_ID") = None ->
    handled env req s (env_rejection s)
| handled_method secret db coll :
    configured env secret db coll ->
    method req <> "POST" ->
    handled env req s (responds "Method Not Allowed" 405, [], s)
| handled_missing secret db coll :
    configured env secret db coll ->
    method req = "POST" ->
    if_truthy (headers req !! "x-nrfcloud-signature") = None ->
    handled env req s
      (responds "Unauthorized: Missing signature" 401,
       [Error "Missing X-NRFCLOUD-SIGNATURE header. Rejecting request."], s)
| handled_mismatch secret db coll sig :
    configured env secret db coll ->
    method req = "POST" ->
    present (headers req !! "x-nrfcloud-signature") sig ->
    sig <> hex (hmac_sha256 secret (body req)) ->
    handled env req s
      (responds "Unauthorized: Invalid signature" 401,
       [Error ("Signature mismatch. Calculated: " +:+
               hex (hmac_sha256 secret (body req)) +:+ ", Received: " +:+ sig)], s)
| handled_verified secret db coll r :
    authentic env req secret db coll ->
    classified env db coll (body req) s r ->
    handled env req s
      (outcome r, Log "Signature verified successfully." :: events r, final_store r).

(** ** Properties of the handler *)

Section Properties.

Context {P : Platform}.

(** *** The monad *)

Lemma bind_normal {A B} (m : js A) (k : A -> js B) s a t s' :
  m s = (Normal a, t, s') ->
  bind m k s = ((k a s').1.1, t ++ (k a s').1.2, (k a s').2).
Proof. intros Hm. unfold bind. rewrite Hm. destruct (k a s') as [[r t'] s'']. reflexivity. Qed.

Lemma bind_throw {A B} (m : js A) (k : A -> js B) s e t s' :
  m s = (Throw e, t, s') -> bind m k s = (Throw e, t, s').
Proof. intros Hm. unfold bind. rewrite Hm. reflexivity. Qed.

(** *** String conversion *)

(** Induction on JSON values that reaches the items of an array. *)
Lemma json_items_ind (Q : json -> Prop) :
  Q JNull ->
  (forall b, Q (JBool b)) ->
  (forall n, Q (JNum n)) ->
  (forall x, Q (JStr x)) ->
  (forall items, Forall Q items -> Q (JArr items)) ->
  (forall props, Q (JObj props)) ->
  forall j, Q j.
Proof.
  intros HN HB HM HS HA HO.
  fix IH 1. intros [| b | n | x | items | props];
    [exact HN | apply HB | apply HM | apply HS | | apply HO].
  apply HA. induction items as [| y rest IHrest]; constructor;
    [apply IH | exact IHrest].
Qed.

Lemma join_items_cons_None (f : json -> option string) x rest :
  join_items f (x :: rest) = None <-> item_text f x = None \/ join_items f rest = None.
Proof.
  cbn [join_items]. destruct (item_text f x) as [t |]; [| tauto].
  destruct rest as [| y rest']; [simpl; split; [discriminate | intros [H | H]; discriminate] |].
  destruct (join_items f (y :: rest')); split; try discriminate; auto.
  intros [H | H]; discriminate.
Qed.

Lemma join_items_None (f : json -> option string) (g : json -> bool) items :
  Forall (fun x => f x = None <-> g x = true) items ->
  g JNull = false ->
  (join_items f items = None <-> existsb g items = true).
Proof.
  intros Hall Hnull. induction Hall as [| x rest Hx Hrest IH]; [simpl; split; discriminate |].
  rewrite join_items_cons_None. cbn [existsb]. rewrite orb_true_iff, <- IH.
  assert (Hi : item_text f x = None <-> g x = true).
  { destruct x; try exact Hx. simpl. rewrite Hnull. split; discriminate. }
  rewrite Hi. reflexivity.
Qed.

(** The conversion throws exactly on the values that redefine [toString]. *)
Lemma ToString_None j : ToString j = None <-> shadows_toString j = true.
Proof.
  induction j as [| b | n | x | items IH | props] using json_items_ind;
    try (simpl; split; discriminate).
  - destruct b; simpl; split; discriminate.
  - cbn [ToString shadows_toString]. apply join_items_None; [exact IH | reflexivity].
  - simpl. destruct (has_own props "toString"); split; auto; discriminate.
Qed.

(** Strings, and an absent property, always convert. *)
Lemma to_text_string x : to_text (of_json (JStr x)) = Some x.
Proof. reflexivity. Qed.

Lemma to_text_undefined : to_text undefined = Some "undefined".
Proof. reflexivity. Qed.

(** *** The gates *)

Lemma if_truthy_present v s : present v s <-> if_truthy v = Some s.
Proof.
  unfold present, if_truthy. split.
  - intros [-> Hne]. destruct (String.eqb_spec s EmptyString); congruence.
  - destruct v as [x |]; [| discriminate].
    destruct (String.eqb_spec x EmptyString); [discriminate |].
    intros [= ->]. auto.
Qed.

Lemma env_gate_rejects env req s :
  if_truthy (env !! "NRFCLOUD_WEBHOOK_SECRET") = None \/
  if_truthy (env !! "DATABASE_ID") = None \/
  if_truthy (env !! "COLLECTION_ID") = None ->
  handler env req s = env_rejection s.
Proof.
  intros H. unfold handler.
  destruct (if_truthy (env !! "NRFCLOUD_WEBHOOK_SECRET")) as [a |];
    destruct (if_truthy (env !! "DATABASE_ID")) as [b |];
    destruct (if_truthy (env !! "COLLECTION_ID")) as [c |];
    try reflexivity.
  destruct H as [H | [H | H]]; discriminate.
Qed.

(** Past the Config/Env gate the handler is the rest of its body. *)
Lemma env_gate_passes env req secret db coll :
  configured env secret db coll ->
  handler env req =
    if negb (String.eqb (method req) "POST") then res_send "Method Not Allowed" 405
    else
      match if_truthy (headers req !! "x-nrfcloud-signature") with
      | None =>
          bind (error "Missing X-NRFCLOUD-SIGNATURE header. Rejecting request.")
               (fun _ => res_send "Unauthorized: Missing signature" 401)
      | Some nrfSignature =>
          let calculatedSignature := hex (hmac_sha256 secret (body req)) in
          if negb (String.eqb calculatedSignature nrfSignature) then
            bind (error ("Signature mismatch. Calculated: " +:+ calculatedSignature +:+
                         ", Received: " +:+ nrfSignature))
                 (fun _ => res_send "Unauthorized: Invalid signature" 401)
          else
            bind (log "Signature verified successfully.")
                 (fun _ => classify env db coll (body req))
      end.
Proof.
  intros (Hs & Hd & Hc). unfold handler.
  apply if_truthy_present in Hs, Hd, Hc. rewrite Hs, Hd, Hc. reflexivity.
Qed.

Lemma hex_length digest : String.length (hex digest) = (2 * length digest)%nat.
Proof. induction digest as [| b rest IH]; simpl; [reflexivity | rewrite IH; lia]. Qed.

(** The signature the code computes is never the empty string. *)
Lemma signature_nonempty secret data : hex (hmac_sha256 secret data) <> EmptyString.
Proof.
  intros H. pose proof (hex_length (hmac_sha256 secret data)) as Hl.
  rewrite H, hmac_sha256_length in Hl. discriminate.
Qed.

(** A request through the three gates is handed to the classifier. *)
Lemma authentic_classify env req secret db coll s :
  authentic env req secret db coll ->
  handler env req s =
    bind (log "Signature verified successfully.")
         (fun _ => classify env db coll (body req)) s.
Proof.
  intros (Hc & Hm & Hh). rewrite (env_gate_passes env req secret db coll Hc).
  rewrite Hm.
  assert (Hp : if_truthy (headers req !! "x-nrfcloud-signature")
               = Some (hex (hmac_sha256 secret (body req)))).
  { apply (proj1 (if_truthy_present _ _)). split; [exact Hh | apply signature_nonempty]. }
  rewrite Hp. cbv zeta. rewrite !String.eqb_refl. reflexivity.
Qed.

(** *** Property reads and the loop body *)

Lemma Get_field v k s : v <> JNull -> Get v k s = (Normal (field v k), [], s).
Proof. destruct v; try reflexivity. congruence. Qed.

Lemma loggable_not_null m : loggable m = true -> m <> JNull.
Proof. destruct m; simpl; congruence. Qed.

Lemma loggable_device m :
  loggable m = true -> exists d, to_text (field m "device_id") = Some d.
Proof.
  unfold loggable. destruct m; try discriminate;
    destruct (to_text _) as [d |]; try discriminate; eauto.
Qed.

Lemma loggable_label m : loggable m = true -> exists d, device_label m = Some d.
Proof.
  intros Hm. destruct (loggable_device m Hm) as [d Hd].
  unfold device_label, or_else. destruct (truthy _); simpl; eauto.
Qed.

(** One pass through the loop body on a message it can log about: the
    write is attempted, its failure is caught, and the pass completes. *)
Lemma store_message_loggable c db coll m s :
  loggable m = true ->
  store_message c db coll m s =
    (Normal tt, message_events c db coll s m,
     (createDocument c s db coll "unique()" (document_of m)).1).
Proof.
  intros Hm. pose proof (loggable_not_null m Hm) as Hn.
  destruct (loggable_device m Hm) as [d Hd].
  destruct (loggable_label m Hm) as [l Hl].
  unfold store_message, try_catch, bind, message_events, create_document, template.
  rewrite !(Get_field m _ s Hn). fold (document_of m).
  destruct (createDocument c s db coll "unique()" (document_of m)) as [s' [msg |]];
    simpl.
  - rewrite (Get_field m _ s' Hn). unfold device_label in *. rewrite Hl. reflexivity.
  - rewrite Hd. reflexivity.
Qed.

(** The loop body on [null]: the read in the [try] throws, and so does the
    read in the [catch]; nothing is written. *)
Lemma store_message_null c db coll s :
  store_message c db coll JNull s =
    (Throw (TypeError "Cannot read properties of null (reading 'device_id')"), [], s).
Proof. reflexivity. Qed.

(** The loop over messages it can log about runs to its end, whatever the
    store answers. *)
Lemma for_of_loggable c db coll messages : forall s,
  forallb loggable messages = true ->
  for_of messages (store_message c db coll) s =
    (Normal tt, loop_events c db coll s messages,
     store_after c db coll s (map document_of messages)).
Proof.
  induction messages as [| m rest IH]; intros s Hall; [reflexivity |].
  simpl in Hall. apply andb_prop in Hall as [Hm Hrest].
  cbn [for_of]. rewrite (bind_normal _ _ _ _ _ _ (store_message_loggable c db coll m s Hm)).
  rewrite (IH _ Hrest). reflexivity.
Qed.

(** The loop over a batch that holds a [null] throws. *)
Lemma for_of_null c db coll messages : forall s,
  In JNull messages ->
  exists e t s', for_of messages (store_message c db coll) s = (Throw e, t, s').
Proof.
  induction messages as [| m rest IH]; intros s Hin; [destruct Hin |].
  cbn [for_of].
  destruct (store_message c db coll m s) as [[[[] | e] t] s1] eqn:Hm.
  - destruct Hin as [-> | Hin].
    + rewrite store_message_null in Hm. discriminate.
    + destruct (IH s1 Hin) as (e & t' & s' & Hrest).
      rewrite (bind_normal _ _ _ _ _ _ Hm), Hrest. simpl. eauto.
  - rewrite (bind_throw _ _ _ _ _ _ Hm). eauto.
Qed.

(** What the loop body throws is a TypeError: a store error is caught. *)
Lemma store_message_throws c db coll m s e t s' :
  store_message c db coll m s = (Throw e, t, s') -> exists msg, e = TypeError msg.
Proof.
  destruct m as [| b | n | x | l | props];
    [rewrite store_message_null; intros [= <- _ _]; eauto | | | | |].
  all: unfold store_message, try_catch, bind, create_document, template, log, error,
         emit, Get, ret, throw.
  all: cbn beta iota.
  all: match goal with
       | |- context [createDocument ?c' ?s0 ?a ?b "unique()" ?d] =>
           destruct (createDocument c' s0 a b "unique()" d) as [s1 [msg |]]
       end; simpl.
  all: repeat match goal with
         | |- context [match to_text ?x with _ => _ end] => destruct (to_text x)
         end; simpl; intros [= <- _ _]; eauto; try discriminate.
Qed.

Lemma for_of_throws c db coll messages : forall s e t s',
  for_of messages (store_message c db coll) s = (Throw e, t, s') ->
  exists msg, e = TypeError msg.
Proof.
  induction messages as [| m rest IH]; intros s e t s'; [discriminate |].
  cbn [for_of]. unfold bind.
  destruct (store_message c db coll m s) as [[[[] | e1] t1] s1] eqn:Hm.
  - destruct (for_of rest _ s1) as [[r t2] s2] eqn:Hr. intros [= -> _ _].
    exact (IH _ _ _ _ Hr).
  - intros [= <- _ _]. exact (store_message_throws _ _ _ _ _ _ _ _ Hm).
Qed.

(** *** The classifier *)

Lemma classify_invalid env db coll text msg s :
  JSON_parse text = inr msg ->
  classify env db coll text s =
    (responds "Invalid JSON" 400, [Error ("Invalid JSON payload: " +:+ msg)], s).
Proof. intros H. unfold classify. rewrite H. reflexivity. Qed.

Lemma classify_null env db coll text s :
  JSON_parse text = inl JNull ->
  classify env db coll text s =
    (Throw (TypeError "Cannot read properties of null (reading 'event')"), [], s).
Proof. intros H. unfold classify. rewrite H. reflexivity. Qed.

Lemma verification_not_null v : is_verification (field v "event") = true -> v <> JNull.
Proof. destruct v; simpl; congruence. Qed.

Lemma classify_verification env db coll text v s :
  JSON_parse text = inl v ->
  is_verification (field v "event") = true ->
  classify env db coll text s =
    match to_text (field v "token") with
    | Some t =>
        (responds "Verification request acknowledged" 200,
         [Log ("Received verification request with token: " +:+ t +:+
               ". Please confirm in nRF Cloud portal.")], s)
    | None => (Throw (TypeError "Cannot convert object to primitive value"), [], s)
    end.
Proof.
  intros Hp Hv. pose proof (verification_not_null v Hv) as Hn.
  unfold classify. rewrite Hp. unfold bind.
  rewrite (Get_field v _ s Hn), Hv, (Get_field v _ s Hn). unfold template.
  destruct (to_text (field v "token")); reflexivity.
Qed.

Lemma classify_telemetry env db coll text v s :
  JSON_parse text = inl v ->
  v <> JNull ->
  is_verification (field v "event") = false ->
  classify env db coll text s = store_messages env db coll v s.
Proof.
  intros Hp Hn Hv. unfold classify. rewrite Hp. unfold bind at 1.
  rewrite (Get_field v _ s Hn), Hv.
  destruct (store_messages env db coll v s) as [[r t] s']. reflexivity.
Qed.

Lemma store_messages_none env db coll v s :
  v <> JNull ->
  has_messages v = false ->
  store_messages env db coll v s =
    (responds "Webhook processing complete" 200,
     [Log "Payload contains no messages or is of an unexpected format."], s).
Proof.
  intros Hn Hm. unfold store_messages. unfold bind at 1.
  rewrite (Get_field v _ s Hn). unfold has_messages in Hm.
  destruct (field v "messages") as [| [| | | | [| m rest] |]];
    try reflexivity; discriminate.
Qed.

(** On a batch the client is built first; what the SDK throws there leaves
    the handler before any write. *)
Lemma store_messages_client_throws env db coll v m rest msg s :
  field v "messages" = of_json (JArr (m :: rest)) ->
  new_Client (client_of env) = Some msg ->
  store_messages env db coll v s =
    (Throw (ClientError msg),
     [Log ("Processing " +:+ nat_to_string (length (m :: rest)) +:+ " messages.");
      NewClient (client_of env)], s).
Proof.
  intros Hm Hc. assert (Hn : v <> JNull) by (intros ->; discriminate).
  unfold store_messages. unfold bind at 1. rewrite (Get_field v _ s Hn), Hm.
  cbv beta iota zeta delta [bind log new_client emit ret throw res_send responds].
  rewrite Hc. reflexivity.
Qed.

(** With the client built, the loop runs, then the handler answers (if the
    loop did not throw). *)
Lemma store_messages_batch env db coll v m rest s :
  field v "messages" = of_json (JArr (m :: rest)) ->
  new_Client (client_of env) = None ->
  store_messages env db coll v s =
    match for_of (m :: rest) (store_message (client_of env) db coll) s with
    | (Normal _, t, s') =>
        (responds "Webhook processing complete" 200,
         Log ("Processing " +:+ nat_to_string (length (m :: rest)) +:+ " messages.")
         :: NewClient (client_of env) :: t, s')
    | (Throw e, t, s') =>
        (Throw e,
         Log ("Processing " +:+ nat_to_string (length (m :: rest)) +:+ " messages.")
         :: NewClient (client_of env) :: t, s')
    end.
Proof.
  intros Hm Hc. assert (Hn : v <> JNull) by (intros ->; discriminate).
  unfold store_messages. unfold bind at 1. rewrite (Get_field v _ s Hn), Hm.
  cbv beta iota zeta delta [bind log new_client emit ret throw res_send responds].
  rewrite Hc. cbv beta iota.
  destruct (for_of (m :: rest) _ s) as [[[[] | e] t] s'];
    cbn [app]; rewrite ?app_nil_r; reflexivity.
Qed.

Lemma classify_classified env db coll text s :
  classified env db coll text s (classify env db coll text s).
Proof.
  destruct (JSON_parse text) as [v | msg] eqn:Hp.
  2:{ rewrite (classify_invalid _ _ _ _ _ _ Hp). by constructor. }
  destruct (is_verification (field v "event")) eqn:Hv.
  - rewrite (classify_verification _ _ _ _ _ _ Hp Hv).
    destruct (to_text (field v "token")) as [t |] eqn:Ht.
    + by eapply classified_verification.
    + by eapply classified_token_throws.
  - assert (Hd : v = JNull \/ v <> JNull) by (destruct v; auto; right; discriminate).
    destruct Hd as [-> | Hn].
    { rewrite (classify_null _ _ _ _ _ Hp). by constructor. }
    rewrite (classify_telemetry _ _ _ _ _ _ Hp Hn Hv).
    destruct (has_messages v) eqn:Hm.
    + unfold has_messages in Hm.
      destruct (field v "messages") as [| [| | | | [| m rest] |]] eqn:Hf;
        try discriminate.
      destruct (new_Client (client_of env)) as [msg |] eqn:Hb.
      { rewrite (store_messages_client_throws _ _ _ _ _ _ _ _ Hf Hb).
        by eapply classified_client_throws. }
      rewrite (store_messages_batch _ _ _ _ _ _ _ Hf Hb).
      destruct (for_of (m :: rest) _ s) as [[o t] s'] eqn:Hloop.
      pose proof (classified_batch env db coll text s v m rest o t s' Hp Hv Hf Hb Hloop)
        as Hc.
      destruct o; exact Hc.
    + rewrite (store_messages_none _ _ _ _ _ Hn Hm). by eapply classified_no_messages.
Qed.

(** Every run of the handler is one of the routes. *)
Lemma handler_handled env req s : handled env req s (handler env req s).
Proof.
  destruct (if_truthy (env !! "NRFCLOUD_WEBHOOK_SECRET")) as [secret |] eqn:Hs;
    [| rewrite env_gate_rejects by auto; constructor; auto].
  destruct (if_truthy (env !! "DATABASE_ID")) as [db |] eqn:Hd;
    [| rewrite env_gate_rejects by auto; constructor; auto].
  destruct (if_truthy (env !! "COLLECTION_ID")) as [coll |] eqn:Hc;
    [| rewrite env_gate_rejects by auto; constructor; auto].
  apply if_truthy_present in Hs, Hd, Hc.
  assert (Hconf : configured env secret db coll) by exact (conj Hs (conj Hd Hc)).
  rewrite (env_gate_passes env req secret db coll Hconf).
  destruct (String.eqb_spec (method req) "POST") as [Hm | Hm]; cbn [negb].
  2:{ by eapply handled_method. }
  destruct (if_truthy (headers req !! "x-nrfcloud-signature")) as [sig |] eqn:Hh.
  2:{ by eapply handled_missing. }
  apply if_truthy_present in Hh. cbv zeta.
  destruct (String.eqb_spec (hex (hmac_sha256 secret (body req))) sig) as [He | He];
    cbn [negb].
  - assert (Ha : authentic env req secret db coll).
    { split; [exact Hconf |]. split; [exact Hm |]. destruct Hh as [-> _]. by rewrite He. }
    pose proof (handled_verified env req s secret db coll _ Ha
                  (classify_classified env db coll (body req) s)) as Hv.
    unfold bind, log, emit.
    destruct (classify env db coll (body req) s) as [[r t] s']. exact Hv.
  - eapply (handled_mismatch env req s secret db coll sig); auto.
Qed.

(** *** The Config/Env gate *)

(** (C8) When one of NRFCLOUD_WEBHOOK_SECRET, DATABASE_ID and COLLECTION_ID
    is set to the empty string, the handler answers every request with 500
    "Internal Server Error", logs the one error line and does nothing else,
    exactly as it does when that variable is removed from the environment:
    the gate tests falsiness, not presence. *)
Theorem empty_required_value_is_absent env req s k :
  In k required_variables ->
  env !! k = Some EmptyString ->
  handler env req s = env_rejection s /\
  handler (delete k env) req s = env_rejection s.
Proof.
  intros Hk He. split; apply env_gate_rejects.
  - destruct Hk as [<- | [<- | [<- | []]]]; rewrite He; auto.
  - destruct Hk as [<- | [<- | [<- | []]]]; rewrite lookup_delete_eq; auto.
Qed.

(** *** The Request gate *)

(** (C5, as amended) A request whose method is not POST is answered 405
    "Method Not Allowed" with no log line, no store call and the store
    untouched when the three required environment values are present; when
    one of them is missing or empty the Config/Env gate, which comes first,
    answers 500 instead. *)
Theorem method_gate_behind_env_gate env req s :
  method req <> "POST" ->
  (forall secret db coll,
     configured env secret db coll ->
     handler env req s = (responds "Method Not Allowed" 405, [], s)) /\
  (if_truthy (env !! "NRFCLOUD_WEBHOOK_SECRET") = None \/
   if_truthy (env !! "DATABASE_ID") = None \/
   if_truthy (env !! "COLLECTION_ID") = None ->
   handler env req s = env_rejection s).
Proof.
  intros Hm. split.
  - intros secret db coll Hc. rewrite (env_gate_passes env req secret db coll Hc).
    destruct (String.eqb_spec (method req) "POST"); [contradiction | reflexivity].
  - apply env_gate_rejects.
Qed.

(** *** The Signature verifier *)

(** (C9) The signature is read under the key x-nrfcloud-signature and no
    other: a POST that got past the Config/Env gate and whose headers map
    has nothing under that exact key, whatever it holds under other keys
    such as X-NRFCLOUD-SIGNATURE, is answered 401 "Unauthorized: Missing
    signature". *)
Theorem signature_read_under_lowercase_key env req secret db coll s :
  configured env secret db coll ->
  method req = "POST" ->
  headers req !! "x-nrfcloud-signature" = None ->
  handler env req s =
    (responds "Unauthorized: Missing signature" 401,
     [Error "Missing X-NRFCLOUD-SIGNATURE header. Rejecting request."], s).
Proof.
  intros Hc Hm Hh. rewrite (env_gate_passes env req secret db coll Hc).
  rewrite Hm, Hh. reflexivity.
Qed.

(** The classifier answers 400 or 200, never 401. *)
Lemma classified_status env db coll text s r resp :
  classified env db coll text s r ->
  outcome r = Normal resp ->
  send_status resp = 400 \/ send_status resp = 200.
Proof.
  intros Hc. destruct Hc; unfold outcome; simpl; try discriminate;
    try (intros [= <-]; simpl; auto).
  destruct o; [intros [= <-]; simpl; auto | discriminate].
Qed.

(** (C1) For a POST with the three required values present and a signature
    header present, the handler answers 401 "Unauthorized: Invalid
    signature" exactly when the header differs, as a string, from the
    lower-case hex digest of HMAC-SHA256 keyed with the secret over the raw
    body (and then logs both values); when they are equal the body goes on
    to the classifier and no 401 is returned. *)
Theorem signature_gate_decides env req secret db coll sig s :
  configured env secret db coll ->
  method req = "POST" ->
  present (headers req !! "x-nrfcloud-signature") sig ->
  (outcome (handler env req s) = responds "Unauthorized: Invalid signature" 401
   <-> sig <> hex (hmac_sha256 secret (body req))) /\
  (sig <> hex (hmac_sha256 secret (body req)) ->
   handler env req s =
     (responds "Unauthorized: Invalid signature" 401,
      [Error ("Signature mismatch. Calculated: " +:+
              hex (hmac_sha256 secret (body req)) +:+ ", Received: " +:+ sig)], s)) /\
  (sig = hex (hmac_sha256 secret (body req)) ->
   handler env req s =
     bind (log "Signature verified successfully.")
          (fun _ => classify env db coll (body req)) s /\
   forall text, outcome (handler env req s) <> responds text 401).
Proof.
  intros Hc Hm Hh.
  assert (Hne : sig <> hex (hmac_sha256 secret (body req)) ->
    handler env req s =
     (responds "Unauthorized: Invalid signature" 401,
      [Error ("Signature mismatch. Calculated: " +:+
              hex (hmac_sha256 secret (body req)) +:+ ", Received: " +:+ sig)], s)).
  { intros Hd. rewrite (env_gate_passes env req secret db coll Hc). rewrite Hm.
    apply if_truthy_present in Hh. rewrite Hh. cbv zeta.
    destruct (String.eqb_spec (hex (hmac_sha256 secret (body req))) sig);
      [congruence | reflexivity]. }
  assert (Heq : sig = hex (hmac_sha256 secret (body req)) ->
    handler env req s =
     bind (log "Signature verified successfully.")
          (fun _ => classify env db coll (body req)) s /\
    forall text, outcome (handler env req s) <> responds text 401).
  { intros ->. assert (Ha : authentic env req secret db coll).
    { split; [exact Hc |]. split; [exact Hm | apply Hh]. }
    rewrite (authentic_classify env req secret db coll s Ha). split; [reflexivity |].
    intros text Hout. unfold bind, log, emit in Hout.
    pose proof (classify_classified env db coll (body req) s) as Hcl.
    destruct (classify env db coll (body req) s) as [[r t] s'].
    apply (classified_status _ _ _ _ _ _ {| send_text := text; send_status := 401 |}) in Hcl;
      [simpl in Hcl; lia | exact Hout]. }
  split; [| split; assumption].
  split.
  - intros Hout Hs. destruct (Heq Hs) as [_ Hno]. exact (Hno _ Hout).
  - intros Hd. rewrite (Hne Hd). reflexivity.
Qed.

(** *** The Payload classifier *)

(** (X6) A request through the env, method and signature gates whose parsed
    payload has [event] equal to "verification" and a token that converts
    to a string (a string, as in the data model, or absent, a number, a
    boolean, [null], a plain object) is answered 200 "Verification request
    acknowledged"; the token is logged, no [createDocument] call is made,
    the store is untouched and [messages], if there, is not looked at. *)
Theorem verification_acknowledged env req secret db coll v t s :
  authentic env req secret db coll ->
  JSON_parse (body req) = inl v ->
  field v "event" = of_json (JStr "verification") ->
  to_text (field v "token") = Some t ->
  handler env req s =
    (responds "Verification request acknowledged" 200,
     [Log "Signature verified successfully.";
      Log ("Received verification request with token: " +:+ t +:+
           ". Please confirm in nRF Cloud portal.")], s) /\
  created (events (handler env req s)) = [].
Proof.
  intros Ha Hp He Ht.
  assert (Hv : is_verification (field v "event") = true) by (rewrite He; reflexivity).
  rewrite (authentic_classify env req secret db coll s Ha).
  unfold bind, log, emit.
  rewrite (classify_verification _ _ _ _ _ _ Hp Hv), Ht. split; reflexivity.
Qed.

(** (C6, the failing input) A request through the three gates whose body is
    the JSON text [null] makes the handler throw at [payload.event]: the
    promise rejects with a TypeError and no response is sent. *)
Theorem null_payload_throws env req secret db coll s :
  authentic env req secret db coll ->
  JSON_parse (body req) = inl JNull ->
  handler env req s =
    (Throw (TypeError "Cannot read properties of null (reading 'event')"),
     [Log "Signature verified successfully."], s).
Proof.
  intros Ha Hp. rewrite (authentic_classify env req secret db coll s Ha).
  unfold bind, log, emit. rewrite (classify_null _ _ _ _ _ Hp). reflexivity.
Qed.

(** (X1) Any other payload that is neither a verification nor a batch takes the
    no-op branch: an object without [messages] or with an empty or
    non-array [messages], an array, a number, a string, a boolean. *)
Lemma no_messages_no_writes env req secret db coll v s :
  authentic env req secret db coll ->
  JSON_parse (body req) = inl v ->
  v <> JNull ->
  is_verification (field v "event") = false ->
  has_messages v = false ->
  handler env req s =
    (responds "Webhook processing complete" 200,
     [Log "Signature verified successfully.";
      Log "Payload contains no messages or is of an unexpected format."], s).
Proof.
  intros Ha Hp Hn Hv Hm. rewrite (authentic_classify env req secret db coll s Ha).
  unfold bind at 1. unfold log, emit.
  rewrite (classify_telemetry _ _ _ _ _ _ Hp Hn Hv), (store_messages_none _ _ _ _ _ Hn Hm).
  reflexivity.
Qed.

(** *** The Persistence writer *)

Lemma created_app t t' : created (t ++ t') = created t ++ created t'.
Proof.
  induction t as [| e t IH]; [reflexivity |].
  destruct e; simpl; rewrite IH; reflexivity.
Qed.

Lemma created_message_events c db coll s m :
  created (message_events c db coll s m) = [call_of db coll m].
Proof.
  unfold message_events. simpl.
  destruct (createDocument c s db coll "unique()" (document_of m)).2;
    [destruct (device_label m) | destruct (to_text (field m "device_id"))]; reflexivity.
Qed.

(** One call per message, in the order of the batch. *)
Lemma created_loop_events c db coll messages : forall s,
  created (loop_events c db coll s messages) = map (call_of db coll) messages.
Proof.
  induction messages as [| m rest IH]; intros s; [reflexivity |].
  cbn [loop_events map]. rewrite created_app, created_message_events, IH. reflexivity.
Qed.

Lemma well_formed_loggable m : well_formed m = true -> loggable m = true.
Proof.
  destruct m as [| | | | | props]; try discriminate. unfold well_formed, loggable, field.
  destruct (own props "device_id") as [| [| | | d | |]]; try discriminate. reflexivity.
Qed.

Lemma forallb_well_formed_loggable messages :
  forallb well_formed messages = true -> forallb loggable messages = true.
Proof.
  induction messages as [| m rest IH]; [reflexivity |]. simpl.
  intros [Hm Hr]%andb_prop. rewrite (well_formed_loggable m Hm), (IH Hr). reflexivity.
Qed.

(** The record written for a well-formed message. *)
Lemma document_of_well_formed m :
  well_formed m = true ->
  exists d a t p,
    field m "device_id" = of_json (JStr d) /\
    field m "appId" = of_json (JStr a) /\
    field m "ts" = of_json (JStr t) /\
    field m "payload" = of_json p /\
    document_of m =
      {| deviceId := of_json (JStr d);
         appId := of_json (JStr a);
         timestamp := of_json (JStr t);
         payload := of_json (JStr (JSON_stringify p)) |}.
Proof.
  destruct m as [| | | | | props]; try discriminate.
  unfold well_formed, document_of, field.
  destruct (own props "device_id") as [| [| | | d | |]]; try discriminate.
  destruct (own props "appId") as [| [| | | a | |]]; try discriminate.
  destruct (own props "ts") as [| [| | | t | |]]; try discriminate.
  destruct (own props "payload") as [| p]; try discriminate.
  intros _. exists d, a, t, p. auto.
Qed.

Lemma loop_events_stored c db coll messages : forall s,
  forallb well_formed messages = true ->
  writes_succeed c db coll s (map document_of messages) ->
  loop_events c db coll s messages = flat_map (stored_events db coll) messages.
Proof.
  induction messages as [| m rest IH]; intros s Hwf Hok; [reflexivity |].
  simpl in Hwf. apply andb_prop in Hwf as [Hm Hr]. destruct Hok as [Hw Hok].
  cbn [loop_events flat_map]. rewrite (IH _ Hr Hok). f_equal.
  unfold message_events, stored_events, device_name. rewrite Hw.
  destruct (document_of_well_formed m Hm) as (d & a & t & p & Hd & _).
  rewrite Hd. reflexivity.
Qed.

(** A batch of messages the loop can log about, the client built: the
    whole run. *)
Lemma batch_run env req secret db coll v m rest s :
  authentic env req secret db coll ->
  new_Client (client_of env) = None ->
  JSON_parse (body req) = inl v ->
  is_verification (field v "event") = false ->
  field v "messages" = of_json (JArr (m :: rest)) ->
  forallb loggable (m :: rest) = true ->
  handler env req s =
    (responds "Webhook processing complete" 200,
     Log "Signature verified successfully."
     :: Log ("Processing " +:+ nat_to_string (length (m :: rest)) +:+ " messages.")
     :: NewClient (client_of env)
     :: loop_events (client_of env) db coll s (m :: rest),
     store_after (client_of env) db coll s (map document_of (m :: rest))).
Proof.
  intros Ha Hb Hp Hv Hf Hl.
  assert (Hn : v <> JNull) by (intros ->; discriminate).
  rewrite (authentic_classify env req secret db coll s Ha).
  unfold bind at 1. unfold log, emit.
  rewrite (classify_telemetry _ _ _ _ _ _ Hp Hn Hv),
          (store_messages_batch _ _ _ _ _ _ _ Hf Hb).
  rewrite (for_of_loggable _ _ _ _ _ Hl). reflexivity.
Qed.

(** A batch on a configuration the SDK refuses: the whole run.  The
    exception leaves the handler before the first write. *)
Lemma refused_client_run env req secret db coll v m rest msg s :
  authentic env req secret db coll ->
  new_Client (client_of env) = Some msg ->
  JSON_parse (body req) = inl v ->
  is_verification (field v "event") = false ->
  field v "messages" = of_json (JArr (m :: rest)) ->
  handler env req s =
    (Throw (ClientError msg),
     [Log "Signature verified successfully.";
      Log ("Processing " +:+ nat_to_string (length (m :: rest)) +:+ " messages.");
      NewClient (client_of env)], s).
Proof.
  intros Ha Hb Hp Hv Hf.
  assert (Hn : v <> JNull) by (intros ->; discriminate).
  rewrite (authentic_classify env req secret db coll s Ha).
  unfold bind at 1. unfold log, emit.
  rewrite (classify_telemetry _ _ _ _ _ _ Hp Hn Hv),
          (store_messages_client_throws _ _ _ _ _ _ _ _ Hf Hb).
  reflexivity.
Qed.

(** (C2, as amended) A request through all the gates whose payload carries
    N >= 1 well-formed messages, the SDK building the client from the three
    APPWRITE_* values without throwing and every write resolving: the
    handler makes exactly N
    [createDocument] calls, one per message in the order of the batch, each
    on the store the call before it left and each followed by its success
    line before the next call; every call names the configured database
    and collection, asks for a generated id ('unique()') and passes
    deviceId = device_id, appId = appId, timestamp = ts and payload =
    JSON.stringify of the payload field; the answer is 200 "Webhook
    processing complete". *)
Theorem telemetry_batch_stored env req secret db coll v messages s :
  authentic env req secret db coll ->
  new_Client (client_of env) = None ->
  JSON_parse (body req) = inl v ->
  is_verification (field v "event") = false ->
  field v "messages" = of_json (JArr messages) ->
  (1 <= length messages)%nat ->
  forallb well_formed messages = true ->
  writes_succeed (client_of env) db coll s (map document_of messages) ->
  handler env req s =
    (responds "Webhook processing complete" 200,
     Log "Signature verified successfully."
     :: Log ("Processing " +:+ nat_to_string (length messages) +:+ " messages.")
     :: NewClient (client_of env)
     :: flat_map (stored_events db coll) messages,
     store_after (client_of env) db coll s (map document_of messages)) /\
  created (events (handler env req s)) = map (call_of db coll) messages /\
  length (created (events (handler env req s))) = length messages /\
  (forall m, In m messages ->
     exists d a t p,
       field m "device_id" = of_json (JStr d) /\
       field m "appId" = of_json (JStr a) /\
       field m "ts" = of_json (JStr t) /\
       field m "payload" = of_json p /\
       document_of m =
         {| deviceId := of_json (JStr d);
            appId := of_json (JStr a);
            timestamp := of_json (JStr t);
            payload := of_json (JStr (JSON_stringify p)) |}).
Proof.
  intros Ha Hb Hp Hv Hf Hlen Hwf Hok.
  destruct messages as [| m rest]; [simpl in Hlen; lia |].
  pose proof (batch_run env req secret db coll v m rest s Ha Hb Hp Hv Hf
                (forallb_well_formed_loggable _ Hwf)) as Hrun.
  assert (Hc : created (events (handler env req s)) = map (call_of db coll) (m :: rest)).
  { rewrite Hrun. unfold events. cbn [fst snd created].
    apply created_loop_events. }
  split; [| split; [exact Hc | split]].
  - rewrite Hrun, (loop_events_stored _ _ _ _ _ Hwf Hok). reflexivity.
  - rewrite Hc. apply length_map.
  - intros m' Hin. apply document_of_well_formed.
    rewrite forallb_forall in Hwf. exact (Hwf m' Hin).
Qed.

Lemma device_label_absent m : field m "device_id" = undefined -> device_label m = Some "unknown".
Proof. unfold device_label. intros ->. reflexivity. Qed.

Lemma device_label_string m d :
  field m "device_id" = of_json (JStr d) -> d <> EmptyString -> device_label m = Some d.
Proof.
  unfold device_label, or_else. intros -> Hd. simpl.
  destruct (String.eqb_spec d EmptyString); [contradiction | reflexivity].
Qed.

(** A rejected write leaves its error line in the events of the loop. *)
Lemma loop_events_error c db coll messages : forall s k m msg label,
  messages !! k = Some m ->
  (createDocument c (store_after c db coll s (map document_of (take k messages)))
     db coll "unique()" (document_of m)).2 = Some msg ->
  device_label m = Some label ->
  In (Error ("Database error for message from " +:+ label +:+ ": " +:+ msg))
     (loop_events c db coll s messages).
Proof.
  induction messages as [| m0 rest IH]; intros s k m msg label Hk Hfail Hlabel;
    [discriminate |].
  cbn [loop_events]. apply in_or_app. destruct k as [| k].
  - injection Hk as ->. simpl in Hfail. left.
    unfold message_events. rewrite Hfail, Hlabel. simpl. auto.
  - right. simpl in Hk, Hfail. exact (IH _ k m msg label Hk Hfail Hlabel).
Qed.

(** (X19) In a batch of N messages the catch block can log about (values
    other than [null] whose [device_id] is absent, a string, or anything
    else that converts to a string), the client built, whatever calls the
    store rejects: every one of the N calls is
    still made, in order; each rejected call leaves the error line
    "Database error for message from <device>: <message>", where <device> is
    the message's [device_id], or "unknown" when it is absent; and the
    answer is 200 "Webhook processing complete". *)
Theorem write_failures_isolated env req secret db coll v messages s :
  authentic env req secret db coll ->
  new_Client (client_of env) = None ->
  JSON_parse (body req) = inl v ->
  is_verification (field v "event") = false ->
  field v "messages" = of_json (JArr messages) ->
  (1 <= length messages)%nat ->
  forallb loggable messages = true ->
  outcome (handler env req s) = responds "Webhook processing complete" 200 /\
  created (events (handler env req s)) = map (call_of db coll) messages /\
  (forall k m msg,
     messages !! k = Some m ->
     (createDocument (client_of env)
        (store_after (client_of env) db coll s (map document_of (take k messages)))
        db coll "unique()" (document_of m)).2 = Some msg ->
     exists label,
       device_label m = Some label /\
       In (Error ("Database error for message from " +:+ label +:+ ": " +:+ msg))
          (events (handler env req s)) /\
       (field m "device_id" = undefined -> label = "unknown") /\
       (forall d, field m "device_id" = of_json (JStr d) -> d <> EmptyString ->
                  label = d)).
Proof.
  intros Ha Hb Hp Hv Hf Hlen Hl.
  destruct messages as [| m0 rest]; [simpl in Hlen; lia |].
  rewrite (batch_run env req secret db coll v m0 rest s Ha Hb Hp Hv Hf Hl).
  unfold outcome, events. cbn [fst snd created].
  split; [reflexivity | split; [apply created_loop_events |]].
  intros k m msg Hk Hfail.
  assert (Hm : loggable m = true).
  { rewrite forallb_forall in Hl. apply Hl.
    apply list_elem_of_In, (list_elem_of_lookup_2 _ k). exact Hk. }
  destruct (loggable_label m Hm) as [label Hlabel]. exists label.
  split; [exact Hlabel | split; [| split]].
  - right. right. right.
    exact (loop_events_error _ _ _ _ _ k m msg label Hk Hfail Hlabel).
  - intros Hd. rewrite (device_label_absent m Hd) in Hlabel. congruence.
  - intros d Hd Hne. rewrite (device_label_string m d Hd Hne) in Hlabel. congruence.
Qed.

(** (C4, a failing input) A request through the three gates whose
    [messages] array holds a [null] makes the handler throw: reading
    [message.device_id] fails in the [try], and again in the [catch] that
    was to log it, so the promise rejects with a TypeError and no response
    is sent.  (On a configuration the SDK refuses the handler has thrown
    before the loop: no response is sent either.) *)
Theorem null_message_throws env req secret db coll v messages s :
  authentic env req secret db coll ->
  JSON_parse (body req) = inl v ->
  is_verification (field v "event") = false ->
  field v "messages" = of_json (JArr messages) ->
  In JNull messages ->
  exists e t s',
    handler env req s = (Throw e, t, s') /\
    (new_Client (client_of env) = None -> exists msg, e = TypeError msg).
Proof.
  intros Ha Hp Hv Hf Hin.
  assert (Hn : v <> JNull) by (intros ->; discriminate).
  destruct messages as [| m rest]; [destruct Hin |].
  destruct (new_Client (client_of env)) as [msg |] eqn:Hb.
  { rewrite (refused_client_run env req secret db coll v m rest msg s Ha Hb Hp Hv Hf).
    eexists _, _, _. split; [reflexivity | discriminate]. }
  rewrite (authentic_classify env req secret db coll s Ha).
  unfold bind at 1. unfold log, emit.
  rewrite (classify_telemetry _ _ _ _ _ _ Hp Hn Hv),
          (store_messages_batch _ _ _ _ _ _ _ Hf Hb).
  destruct (for_of_null (client_of env) db coll (m :: rest) s Hin) as (e & t & s' & Hloop).
  destruct (for_of_throws _ _ _ _ _ _ _ _ Hloop) as [msg ->].
  rewrite Hloop. eexists _, _, _. split; [reflexivity | eauto].
Qed.

(** *** The client *)

Lemma store_message_no_client c db coll m s :
  Forall not_client (events (store_message c db coll m s)).
Proof.
  destruct m as [| b | n | x | l | props];
    [rewrite store_message_null; constructor | | | | |].
  all: unfold store_message, try_catch, bind, create_document, template, log, error,
         emit, Get, ret, throw, events.
  all: cbn beta iota.
  all: match goal with
       | |- context [createDocument ?c' ?s0 ?a ?b "unique()" ?d] =>
           destruct (createDocument c' s0 a b "unique()" d) as [s' [msg |]]
       end; simpl.
  all: repeat match goal with
         | |- context [match to_text ?x with _ => _ end] => destruct (to_text x)
         end; simpl; repeat constructor.
Qed.

Lemma for_of_no_client c db coll messages : forall s,
  Forall not_client (events (for_of messages (store_message c db coll) s)).
Proof.
  induction messages as [| m rest IH]; intros s; [constructor |].
  cbn [for_of]. pose proof (store_message_no_client c db coll m s) as Hm.
  unfold bind. destruct (store_message c db coll m s) as [[[[] | e] t] s1].
  - specialize (IH s1). destruct (for_of rest _ s1) as [[r t'] s2].
    unfold events in *. simpl in *. apply Forall_app. split; assumption.
  - exact Hm.
Qed.

(** Of the events of a classified body, only the one at the head of a
    batch builds a client, and it builds the client of the environment. *)
Lemma classified_client env db coll text s r c :
  classified env db coll text s r ->
  In (NewClient c) (events r) ->
  c = client_of env /\
  exists v m rest,
    JSON_parse text = inl v /\
    is_verification (field v "event") = false /\
    field v "messages" = of_json (JArr (m :: rest)).
Proof.
  intros Hc. destruct Hc as [msg Hp | Hp | v t Hp Hv Ht | v Hp Hv Ht | v Hp Hn Hv Hm
                            | v m rest msg Hp Hv Hf Hb
                            | v m rest o t s' Hp Hv Hf Hb Hloop];
    unfold events; simpl.
  1-5: intros Hin; repeat (destruct Hin as [Hin | Hin]; [discriminate |]);
       destruct Hin.
  { intros [Hin | [Hin | []]]; [discriminate |].
    injection Hin as <-. split; [reflexivity |]. exists v, m, rest. auto. }
  intros [Hin | [Hin | Hin]]; [discriminate | |].
  - injection Hin as <-. split; [reflexivity |]. exists v, m, rest. auto.
  - pose proof (for_of_no_client (client_of env) db coll (m :: rest) s) as Hno.
    rewrite Hloop in Hno. unfold events in Hno. simpl in Hno.
    rewrite List.Forall_forall in Hno. destruct (Hno _ Hin).
Qed.

(** A body that builds no client is classified the same way under any
    environment. *)
Lemma classify_frame env env' db coll text s :
  (forall c, ~ In (NewClient c) (events (classify env db coll text s))) ->
  classify env' db coll text s = classify env db coll text s.
Proof.
  intros Hno. destruct (JSON_parse text) as [v | msg] eqn:Hp.
  2:{ rewrite (classify_invalid env' _ _ _ _ _ Hp), (classify_invalid env _ _ _ _ _ Hp).
      reflexivity. }
  destruct (is_verification (field v "event")) eqn:Hv.
  { rewrite (classify_verification env' _ _ _ _ _ Hp Hv),
            (classify_verification env _ _ _ _ _ Hp Hv). reflexivity. }
  assert (Hd : v = JNull \/ v <> JNull) by (destruct v; auto; right; discriminate).
  destruct Hd as [-> | Hn].
  { rewrite (classify_null env' _ _ _ _ Hp), (classify_null env _ _ _ _ Hp). reflexivity. }
  rewrite (classify_telemetry env' _ _ _ _ _ Hp Hn Hv).
  rewrite (classify_telemetry env _ _ _ _ _ Hp Hn Hv) in *.
  destruct (has_messages v) eqn:Hm.
  - exfalso. unfold has_messages in Hm.
    destruct (field v "messages") as [| [| | | | [| m rest] |]] eqn:Hf;
      try discriminate.
    apply (Hno (client_of env)).
    destruct (new_Client (client_of env)) as [msg |] eqn:Hb.
    { rewrite (store_messages_client_throws _ _ _ _ _ _ _ _ Hf Hb).
      unfold events; simpl; auto. }
    rewrite (store_messages_batch _ _ _ _ _ _ _ Hf Hb).
    destruct (for_of (m :: rest) _ s) as [[[[] | e] t] s']; unfold events; simpl; auto.
  - rewrite (store_messages_none env' _ _ _ _ Hn Hm), (store_messages_none env _ _ _ _ Hn Hm).
    reflexivity.
Qed.

(** (C10) The client is built, and APPWRITE_ENDPOINT, APPWRITE_PROJECT_ID
    and APPWRITE_API_KEY are read, only in a run that passed the env,
    method and signature gates, parsed its body, found no verification
    event and found [messages] to be a non-empty array; it is then built
    from the environment as it is.  Every other run (rejected by a gate,
    a verification, a payload without messages, or one that threw before)
    is the same whatever those three variables hold. *)
Theorem client_built_only_for_batches env req s :
  (forall c, In (NewClient c) (events (handler env req s)) ->
     c = client_of env /\
     exists secret db coll v m rest,
       authentic env req secret db coll /\
       JSON_parse (body req) = inl v /\
       is_verification (field v "event") = false /\
       field v "messages" = of_json (JArr (m :: rest))) /\
  ((forall c, ~ In (NewClient c) (events (handler env req s))) ->
   forall env', agree_but_appwrite env env' ->
     handler env' req s = handler env req s).
Proof.
  split.
  - intros c. pose proof (handler_handled env req s) as Hh.
    remember (handler env req s) as r eqn:Hr. clear Hr.
    destruct Hh as [Hg | secret db coll Hc Hm | secret db coll Hc Hm Hs
                   | secret db coll sig Hc Hm Hs Hd | secret db coll r Ha Hcl];
      unfold events; simpl.
    1-4: intros Hin; repeat (destruct Hin as [Hin | Hin]; [discriminate |]);
         destruct Hin.
    intros [Hin | Hin]; [discriminate |].
    destruct (classified_client _ _ _ _ _ _ _ Hcl Hin) as (-> & v & m & rest & Hp & Hv & Hf).
    split; [reflexivity |]. exists secret, db, coll, v, m, rest. auto.
  - intros Hno env' Hag.
    assert (E1 : env' !! "NRFCLOUD_WEBHOOK_SECRET" = env !! "NRFCLOUD_WEBHOOK_SECRET").
    { apply Hag. simpl. intros [H | [H | [H | []]]]; discriminate. }
    assert (E2 : env' !! "DATABASE_ID" = env !! "DATABASE_ID").
    { apply Hag. simpl. intros [H | [H | [H | []]]]; discriminate. }
    assert (E3 : env' !! "COLLECTION_ID" = env !! "COLLECTION_ID").
    { apply Hag. simpl. intros [H | [H | [H | []]]]; discriminate. }
    unfold handler in *. rewrite E1, E2, E3.
    destruct (if_truthy (env !! "NRFCLOUD_WEBHOOK_SECRET")) as [secret |]; [| reflexivity].
    destruct (if_truthy (env !! "DATABASE_ID")) as [db |]; [| reflexivity].
    destruct (if_truthy (env !! "COLLECTION_ID")) as [coll |]; [| reflexivity].
    destruct (negb (method req =? "POST")%string); [reflexivity |].
    destruct (if_truthy (headers req !! "x-nrfcloud-signature")) as [sig |];
      [| reflexivity].
    cbv zeta in *.
    destruct (negb (hex (hmac_sha256 secret (body req)) =? sig)%string); [reflexivity |].
    unfold bind, log, emit in *.
    rewrite (classify_frame env env' db coll (body req) s); [reflexivity |].
    intros c Hin. apply (Hno c).
    destruct (classify env db coll (body req) s) as [[r t] s'].
    unfold events in *. simpl in *. auto.
Qed.

(** *** Further properties of the interface *)

Lemma hex_digit_lower n : is_lower_hex (hex_digit n) = true.
Proof.
  destruct n as [| p]; [reflexivity |].
  do 4 (destruct p as [p | p |]; try reflexivity).
Qed.

(** The digest is printed in lower case, two characters a byte: 64
    characters for SHA-256. *)
Lemma hex_lowercase digest : forallb is_lower_hex (list_ascii_of_string (hex digest)) = true.
Proof.
  induction digest as [| b rest IH]; [reflexivity |].
  cbn [hex list_ascii_of_string forallb]. rewrite !hex_digit_lower, IH. reflexivity.
Qed.

(** The signature the header is compared with: 64 characters, each one of
    0-9 and a-f, so a header in upper case never matches a digest that has
    a letter in it. *)
Theorem computed_signature_format secret data :
  String.length (hex (hmac_sha256 secret data)) = 64%nat /\
  forallb is_lower_hex (list_ascii_of_string (hex (hmac_sha256 secret data))) = true.
Proof.
  split; [rewrite hex_length, hmac_sha256_length; reflexivity | apply hex_lowercase].
Qed.

Lemma classified_in_table env db coll text s r :
  classified env db coll text s r -> in_table_or_thrown (client_of env) r.
Proof.
  intros Hc. destruct Hc as [msg Hp | Hp | v t Hp Hv Ht | v Hp Hv Ht | v Hp Hn Hv Hm
                            | v m rest msg Hp Hv Hf Hb
                            | v m rest o t s' Hp Hv Hf Hb Hloop];
    unfold in_table_or_thrown, outcome, response_table; simpl; auto 10.
  destruct o as [[] | e]; simpl; [auto 10 |].
  destruct (for_of_throws _ _ _ _ _ _ _ _ Hloop) as [msg ->]. exact I.
Qed.

(** (X2) Every run ends with one of the seven responses of the table, with a
    TypeError thrown out of the handler, or with the exception the SDK
    throws when it refuses the APPWRITE_* values of the environment.  The
    TypeError happens on a [null] payload, on a [null] message, and on a
    token or device_id that does not convert to a string (the routes
    [classified_null], [classified_token_throws] and a throwing loop in
    [classified_batch]); the rejection of a write never leaves the handler. *)
Theorem handler_outcome_table env req s :
  in_table_or_thrown (client_of env) (handler env req s).
Proof.
  pose proof (handler_handled env req s) as Hh.
  remember (handler env req s) as r eqn:Hr. clear Hr.
  destruct Hh as [Hg | secret db coll Hc Hm | secret db coll Hc Hm Hs
                 | secret db coll sig Hc Hm Hs Hd | secret db coll r Ha Hcl].
  1-4: unfold in_table_or_thrown, outcome, response_table; simpl; auto 10.
  apply (classified_in_table _ _ _ _ _ _) in Hcl.
  unfold in_table_or_thrown, outcome in *. exact Hcl.
Qed.

(** (X3) A body that is not JSON, on a request through the three gates, is
    answered 400 "Invalid JSON" after the parse error is logged; nothing
    is written. *)
Theorem invalid_json_rejected env req secret db coll msg s :
  authentic env req secret db coll ->
  JSON_parse (body req) = inr msg ->
  handler env req s =
    (responds "Invalid JSON" 400,
     [Log "Signature verified successfully."; Error ("Invalid JSON payload: " +:+ msg)],
     s).
Proof.
  intros Ha Hp. rewrite (authentic_classify env req secret db coll s Ha).
  unfold bind, log, emit. rewrite (classify_invalid _ _ _ _ _ _ Hp). reflexivity.
Qed.

(** (X4) Replaying a request repeats its writes: whatever the store holds, the
    same calls are made again, each asking for a fresh generated id; with
    the client built they are the calls of the whole batch. *)
Theorem replay_repeats_writes env req secret db coll v messages s s' :
  authentic env req secret db coll ->
  JSON_parse (body req) = inl v ->
  is_verification (field v "event") = false ->
  field v "messages" = of_json (JArr messages) ->
  (1 <= length messages)%nat ->
  forallb loggable messages = true ->
  created (events (handler env req s')) = created (events (handler env req s)) /\
  (new_Client (client_of env) = None ->
   created (events (handler env req s)) = map (call_of db coll) messages).
Proof.
  intros Ha Hp Hv Hf Hlen Hl.
  destruct messages as [| m rest]; [simpl in Hlen; lia |].
  destruct (new_Client (client_of env)) as [msg |] eqn:Hb.
  { rewrite (refused_client_run env req secret db coll v m rest msg s Ha Hb Hp Hv Hf).
    rewrite (refused_client_run env req secret db coll v m rest msg s' Ha Hb Hp Hv Hf).
    split; [reflexivity | discriminate]. }
  rewrite (batch_run env req secret db coll v m rest s Ha Hb Hp Hv Hf Hl).
  rewrite (batch_run env req secret db coll v m rest s' Ha Hb Hp Hv Hf Hl).
  unfold events. cbn [fst snd created]. rewrite !created_loop_events. auto.
Qed.

(** (X5) A request whose headers map has nothing usable under the signature key
    never reaches the store, whatever its body. *)
Theorem unsigned_request_writes_nothing env req s :
  if_truthy (headers req !! "x-nrfcloud-signature") = None ->
  created (events (handler env req s)) = [] /\ final_store (handler env req s) = s.
Proof.
  intros Hh. pose proof (handler_handled env req s) as Hd.
  remember (handler env req s) as r eqn:Hr. clear Hr.
  destruct Hd as [Hg | secret db coll Hc Hm | secret db coll Hc Hm Hs
                 | secret db coll sig Hc Hm Hs Hne | secret db coll r Ha Hcl];
    try (split; reflexivity).
  destruct Ha as (_ & _ & Hsig).
  assert (Hp : if_truthy (headers req !! "x-nrfcloud-signature")
               = Some (hex (hmac_sha256 secret (body req)))).
  { apply (proj1 (if_truthy_present _ _)). split; [exact Hsig | apply signature_nonempty]. }
  congruence.
Qed.

(** (C7, the failing input) A verification whose token is outside the data
    model, an object with an own [toString] (or an array holding one), makes
    the template literal of line 50 throw: the handler logs no token and
    sends no response. *)
Theorem shadowed_token_throws env req secret db coll v j s :
  authentic env req secret db coll ->
  JSON_parse (body req) = inl v ->
  field v "event" = of_json (JStr "verification") ->
  field v "token" = of_json j ->
  shadows_toString j = true ->
  handler env req s =
    (Throw (TypeError "Cannot convert object to primitive value"),
     [Log "Signature verified successfully."], s).
Proof.
  intros Ha Hp He Ht Hj.
  assert (Hv : is_verification (field v "event") = true) by (rewrite He; reflexivity).
  rewrite (authentic_classify env req secret db coll s Ha).
  unfold bind, log, emit.
  rewrite (classify_verification _ _ _ _ _ _ Hp Hv), Ht. cbn [to_text].
  rewrite (proj2 (ToString_None j) Hj). reflexivity.
Qed.

(** *** The loop body on any message *)

Lemma unloggable_device m :
  m <> JNull -> loggable m = false ->
  to_text (field m "device_id") = None /\ device_label m = None.
Proof.
  intros Hn Hl.
  assert (Hd : to_text (field m "device_id") = None).
  { destruct m; try congruence; unfold loggable in Hl;
      destruct (to_text _); congruence. }
  split; [exact Hd |]. unfold device_label, or_else.
  destruct (field m "device_id") as [| j]; [discriminate |].
  destruct j as [| [] | n | x | l | o]; try discriminate; simpl; exact Hd.
Qed.

(** One pass through the loop body on a message it cannot log about: the
    call is made on any message but [null], and the pass throws, whether
    the write resolved or not. *)
Lemma store_message_unloggable c db coll m s :
  loggable m = false ->
  store_message c db coll m s =
    (Throw (thrown_by m), aborted_events db coll m, store_step c db coll s m).
Proof.
  intros Hl.
  assert (Hd : m = JNull \/ m <> JNull) by (destruct m; auto; right; discriminate).
  destruct Hd as [-> | Hn]; [reflexivity |].
  destruct (unloggable_device m Hn Hl) as [Hd Hlabel].
  assert (Ht : thrown_by m = TypeError "Cannot convert object to primitive value")
    by (destruct m; first [reflexivity | congruence]).
  assert (He : aborted_events db coll m = [CreateDocument db coll "unique()" (document_of m)])
    by (destruct m; first [reflexivity | congruence]).
  assert (Hs : store_step c db coll s m
               = (createDocument c s db coll "unique()" (document_of m)).1)
    by (destruct m; first [reflexivity | congruence]).
  rewrite Ht, He, Hs.
  unfold store_message, try_catch, bind, create_document, template.
  rewrite !(Get_field m _ s Hn). fold (document_of m).
  destruct (createDocument c s db coll "unique()" (document_of m)) as [s' [msg |]];
    simpl.
  - rewrite (Get_field m _ s' Hn). unfold device_label in Hlabel. rewrite Hlabel.
    reflexivity.
  - rewrite Hd. simpl. rewrite (Get_field m _ s' Hn).
    unfold device_label in Hlabel. rewrite Hlabel. reflexivity.
Qed.

(** The loop stops at the first message it cannot log about: the messages
    before it are processed, the ones after it are not reached. *)
Lemma for_of_stops c db coll pre m post : forall s,
  forallb loggable pre = true ->
  loggable m = false ->
  for_of (pre ++ m :: post) (store_message c db coll) s =
    (Throw (thrown_by m),
     loop_events c db coll s pre ++ aborted_events db coll m,
     store_step c db coll (store_after c db coll s (map document_of pre)) m).
Proof.
  induction pre as [| m0 rest IH]; intros s Hpre Hm.
  - cbn [app for_of]. rewrite (bind_throw _ _ _ _ _ _ (store_message_unloggable c db coll m s Hm)).
    reflexivity.
  - simpl in Hpre. apply andb_prop in Hpre as [H0 Hrest].
    cbn [app for_of].
    rewrite (bind_normal _ _ _ _ _ _ (store_message_loggable c db coll m0 s H0)).
    rewrite (IH _ Hrest Hm). cbn [fst snd loop_events map store_after].
    rewrite app_assoc. reflexivity.
Qed.

Lemma first_unloggable messages :
  forallb loggable messages = false ->
  exists pre m post,
    messages = pre ++ m :: post /\ forallb loggable pre = true /\ loggable m = false.
Proof.
  induction messages as [| m0 rest IH]; [discriminate |]. simpl.
  destruct (loggable m0) eqn:H0; simpl.
  - intros Hr. destruct (IH Hr) as (pre & m & post & -> & Hpre & Hm).
    exists (m0 :: pre), m, post. simpl. rewrite H0. auto.
  - intros _. exists [], m0, rest. auto.
Qed.

(** The loop throws exactly when the batch holds a message it cannot log
    about. *)
Lemma for_of_outcome c db coll messages s :
  (exists e, outcome (for_of messages (store_message c db coll) s) = Throw e) <->
  forallb loggable messages = false.
Proof.
  destruct (forallb loggable messages) eqn:Hl.
  - rewrite (for_of_loggable _ _ _ _ _ Hl). unfold outcome. simpl.
    split; [intros [e He]; discriminate | discriminate].
  - destruct (first_unloggable messages Hl) as (pre & m & post & -> & Hpre & Hm).
    rewrite (for_of_stops _ _ _ _ _ _ _ Hpre Hm). unfold outcome. simpl.
    split; eauto.
Qed.

(** *** Which request gets which answer *)

Lemma is_verification_spec v :
  is_verification v = true <-> v = of_json (JStr "verification").
Proof.
  destruct v as [| [| | | x | |]]; simpl; try (split; discriminate).
  rewrite String.eqb_eq. split; [intros -> | intros [= ->]]; reflexivity.
Qed.

Lemma configured_unique env secret db coll secret' db' coll' :
  configured env secret db coll -> configured env secret' db' coll' ->
  secret' = secret /\ db' = db /\ coll' = coll.
Proof.
  intros ([H1 _] & [H2 _] & [H3 _]) ([H1' _] & [H2' _] & [H3' _]).
  repeat split; congruence.
Qed.

Lemma configured_truthy env secret db coll :
  configured env secret db coll ->
  ~ (if_truthy (env !! "NRFCLOUD_WEBHOOK_SECRET") = None \/
     if_truthy (env !! "DATABASE_ID") = None \/
     if_truthy (env !! "COLLECTION_ID") = None).
Proof.
  intros (H1 & H2 & H3). apply if_truthy_present in H1, H2, H3.
  intros [H | [H | H]]; congruence.
Qed.

Ltac break_hyps :=
  repeat match goal with
         | H : exists _, _ |- _ => destruct H
         | H : _ /\ _ |- _ => destruct H
         end.

Ltac route_solver :=
  first
    [ discriminate
    | reflexivity
    | tauto
    | solve [eauto 10]
    | solve [ break_hyps;
              first
                [ congruence
                | contradiction
                | match goal with
                  | Hc : configured _ _ _ _, Hg : _ \/ _ |- _ =>
                      destruct (configured_truthy _ _ _ _ Hc Hg)
                  end
                | match goal with
                  | Hp : present _ _ |- _ => apply if_truthy_present in Hp; congruence
                  end ] ] ].

(** The run of a request through the three gates, by what its body holds. *)
Lemma authentic_run env req secret db coll s :
  authentic env req secret db coll ->
  handler env req s =
    (outcome (classify env db coll (body req) s),
     Log "Signature verified successfully." :: events (classify env db coll (body req) s),
     final_store (classify env db coll (body req) s)).
Proof.
  intros Ha. rewrite (authentic_classify env req secret db coll s Ha).
  unfold bind, log, emit. destruct (classify env db coll (body req) s) as [[r t] s'].
  reflexivity.
Qed.

(** (X7) Each rejection of the response table is sent on exactly one
    condition: 500 when a required variable is unset or empty; 405 when the
    three are there and the method is not POST; 401 "Missing signature" when
    moreover the method is POST and the signature header is unset or empty;
    401 "Invalid signature" when the header is there and differs from the
    computed digest. *)
Theorem rejections_characterised env req s :
  (outcome (handler env req s) = responds "Internal Server Error" 500 <->
     if_truthy (env !! "NRFCLOUD_WEBHOOK_SECRET") = None \/
     if_truthy (env !! "DATABASE_ID") = None \/
     if_truthy (env !! "COLLECTION_ID") = None) /\
  (outcome (handler env req s) = responds "Method Not Allowed" 405 <->
     exists secret db coll,
       configured env secret db coll /\ method req <> "POST") /\
  (outcome (handler env req s) = responds "Unauthorized: Missing signature" 401 <->
     exists secret db coll,
       configured env secret db coll /\ method req = "POST" /\
       if_truthy (headers req !! "x-nrfcloud-signature") = None) /\
  (outcome (handler env req s) = responds "Unauthorized: Invalid signature" 401 <->
     exists secret db coll sig,
       configured env secret db coll /\ method req = "POST" /\
       present (headers req !! "x-nrfcloud-signature") sig /\
       sig <> hex (hmac_sha256 secret (body req))).
Proof.
  pose proof (handler_handled env req s) as Hh.
  remember (handler env req s) as r eqn:Hr. clear Hr.
  destruct Hh as [Hg | secret db coll Hc Hm | secret db coll Hc Hm Hs
                 | secret db coll sig Hc Hm Hs Hd | secret db coll r Ha Hcl];
    unfold outcome; cbn [fst snd].
  1-4: split; [| split; [| split]]; split; intros H; route_solver.
  destruct Ha as (Hc & Hm & Hsig).
  assert (Hp : if_truthy (headers req !! "x-nrfcloud-signature")
               = Some (hex (hmac_sha256 secret (body req)))).
  { apply (proj1 (if_truthy_present _ _)). split; [exact Hsig | apply signature_nonempty]. }
  assert (Hout : forall text status,
            status <> 400 -> status <> 200 -> r.1.1 <> responds text status).
  { intros text status H4 H2 Heq.
    destruct (classified_status _ _ _ _ _ _ _ Hcl Heq); simpl in *; congruence. }
  split; [| split; [| split]]; split; intros H;
    try (exfalso; refine (Hout _ _ _ _ H); lia); try route_solver.
  break_hyps.
  match goal with
  | Hc' : configured env _ _ _ |- _ =>
      destruct (configured_unique _ _ _ _ _ _ _ Hc Hc') as (-> & _ & _)
  end.
  match goal with Hp' : present _ _ |- _ => destruct Hp' as [Hp' _] end.
  congruence.
Qed.

(** (X8) Past the three gates, each of the three remaining answers is sent
    on exactly one condition: 400 when the body does not parse; the
    acknowledgement when [event] is the string "verification" and the token
    converts to a string; 200 "Webhook processing complete" when the payload
    is not [null], is no verification, and its [messages], if an array that
    is not empty, finds the SDK building the client and holds only messages
    the loop can log about. *)
Theorem completions_characterised env req s :
  (outcome (handler env req s) = responds "Invalid JSON" 400 <->
     exists secret db coll msg,
       authentic env req secret db coll /\ JSON_parse (body req) = inr msg) /\
  (outcome (handler env req s) = responds "Verification request acknowledged" 200 <->
     exists secret db coll v t,
       authentic env req secret db coll /\ JSON_parse (body req) = inl v /\
       field v "event" = of_json (JStr "verification") /\
       to_text (field v "token") = Some t) /\
  (outcome (handler env req s) = responds "Webhook processing complete" 200 <->
     exists secret db coll v,
       authentic env req secret db coll /\ JSON_parse (body req) = inl v /\
       v <> JNull /\ is_verification (field v "event") = false /\
       forall messages, field v "messages" = of_json (JArr messages) ->
         messages = [] \/
         (new_Client (client_of env) = None /\ forallb loggable messages = true)).
Proof.
  split; [| split]; split.
  - pose proof (handler_handled env req s) as Hh.
    remember (handler env req s) as r eqn:Hr. clear Hr.
    destruct Hh as [Hg | ? ? ? Hc Hm | ? ? ? Hc Hm Hs | ? ? ? sig Hc Hm Hs Hd
                   | secret db coll r Ha Hcl];
      unfold outcome; cbn [fst snd]; try discriminate.
    destruct Hcl; cbn [fst snd]; try discriminate; [eauto 10 |].
    destruct o; discriminate.
  - intros (secret & db & coll & msg & Ha & Hp).
    rewrite (authentic_run env req secret db coll s Ha), (classify_invalid _ _ _ _ _ _ Hp).
    reflexivity.
  - pose proof (handler_handled env req s) as Hh.
    remember (handler env req s) as r eqn:Hr. clear Hr.
    destruct Hh as [Hg | ? ? ? Hc Hm | ? ? ? Hc Hm Hs | ? ? ? sig Hc Hm Hs Hd
                   | secret db coll r Ha Hcl];
      unfold outcome; cbn [fst snd]; try discriminate.
    destruct Hcl as [msg Hp | Hp | v t Hp Hv Ht | v Hp Hv Ht | v Hp Hn Hv Hm
                    | v m rest msg' Hp Hv Hf Hb
                    | v m rest o t s' Hp Hv Hf Hb Hloop];
      cbn [fst snd]; try discriminate.
    + intros _. apply is_verification_spec in Hv. eauto 10.
    + destruct o; discriminate.
  - intros (secret & db & coll & v & t & Ha & Hp & He & Ht).
    assert (Hv : is_verification (field v "event") = true)
      by (apply is_verification_spec; exact He).
    rewrite (authentic_run env req secret db coll s Ha),
            (classify_verification _ _ _ _ _ _ Hp Hv), Ht. reflexivity.
  - pose proof (handler_handled env req s) as Hh.
    remember (handler env req s) as r eqn:Hr. clear Hr.
    destruct Hh as [Hg | ? ? ? Hc Hm | ? ? ? Hc Hm Hs | ? ? ? sig Hc Hm Hs Hd
                   | secret db coll r Ha Hcl];
      unfold outcome; cbn [fst snd]; try discriminate.
    destruct Hcl as [msg Hp | Hp | v t Hp Hv Ht | v Hp Hv Ht | v Hp Hn Hv Hm
                    | v m rest msg' Hp Hv Hf Hb
                    | v m rest o t s' Hp Hv Hf Hb Hloop];
      cbn [fst snd]; try discriminate.
    + intros _. exists secret, db, coll, v. repeat (split; [assumption |]).
      intros messages Hf. unfold has_messages in Hm. rewrite Hf in Hm.
      destruct messages; [left; reflexivity | discriminate].
    + destruct o as [[] | e]; [| discriminate]. intros _.
      exists secret, db, coll, v. split; [assumption |]. split; [assumption |].
      split; [intros ->; discriminate |]. split; [assumption |].
      intros messages Hf'. rewrite Hf in Hf'. injection Hf' as <-.
      right. split; [exact Hb |].
      destruct (forallb loggable (m :: rest)) eqn:Hl; [reflexivity |].
      apply (for_of_outcome (client_of env) db coll (m :: rest) s) in Hl.
      destruct Hl as [e He]. rewrite Hloop in He. discriminate.
  - intros (secret & db & coll & v & Ha & Hp & Hn & Hv & Hall).
    rewrite (authentic_run env req secret db coll s Ha),
            (classify_telemetry _ _ _ _ _ _ Hp Hn Hv).
    destruct (has_messages v) eqn:Hm.
    + unfold has_messages in Hm.
      destruct (field v "messages") as [| [| | | | [| m rest] |]] eqn:Hf;
        try discriminate.
      destruct (Hall _ eq_refl) as [Hnil | [Hb Hl]]; [discriminate |].
      rewrite (store_messages_batch _ _ _ _ _ _ _ Hf Hb),
              (for_of_loggable _ _ _ _ _ Hl). reflexivity.
    + rewrite (store_messages_none _ _ _ _ _ Hn Hm). reflexivity.
Qed.

(** (X9) The handler throws, and so sends no response, exactly on a request
    through the three gates whose body parses to [null], or to a
    verification whose token does not convert to a string, or to a payload
    with a [messages] array that is not empty, when the SDK refuses the
    APPWRITE_* values or the array holds a message the loop cannot log
    about (a [null], or a [device_id] that does not convert to a string). *)
Theorem handler_throws_iff env req s :
  (exists e, outcome (handler env req s) = Throw e) <->
  exists secret db coll v,
    authentic env req secret db coll /\ JSON_parse (body req) = inl v /\
    (v = JNull \/
     (is_verification (field v "event") = true /\ to_text (field v "token") = None) \/
     (is_verification (field v "event") = false /\
      exists messages,
        field v "messages" = of_json (JArr messages) /\ messages <> [] /\
        (new_Client (client_of env) <> None \/ forallb loggable messages = false))).
Proof.
  split.
  - pose proof (handler_handled env req s) as Hh.
    remember (handler env req s) as r eqn:Hr. clear Hr.
    destruct Hh as [Hg | ? ? ? Hc Hm | ? ? ? Hc Hm Hs | ? ? ? sig Hc Hm Hs Hd
                   | secret db coll r Ha Hcl];
      unfold outcome; cbn [fst snd]; try (intros [e He]; discriminate).
    destruct Hcl as [msg Hp | Hp | v t Hp Hv Ht | v Hp Hv Ht | v Hp Hn Hv Hm
                    | v m rest msg' Hp Hv Hf Hb
                    | v m rest o t s' Hp Hv Hf Hb Hloop];
      cbn [fst snd]; try (intros [e He]; discriminate).
    + intros _. exists secret, db, coll, JNull. auto.
    + intros _. exists secret, db, coll, v. auto 10.
    + intros _. exists secret, db, coll, v. split; [assumption |]. split; [assumption |].
      right. right. split; [assumption |]. exists (m :: rest). split; [assumption |].
      split; [discriminate |]. left. rewrite Hb. discriminate.
    + intros [e He]. destruct o as [[] | e']; [discriminate |].
      exists secret, db, coll, v. split; [assumption |]. split; [assumption |].
      right. right. split; [assumption |]. exists (m :: rest). split; [assumption |].
      split; [discriminate |]. right.
      destruct (forallb loggable (m :: rest)) eqn:Hl; [| reflexivity].
      rewrite (for_of_loggable _ _ _ _ _ Hl) in Hloop. discriminate.
  - intros (secret & db & coll & v & Ha & Hp & Hcase).
    rewrite (authentic_run env req secret db coll s Ha). unfold outcome. cbn [fst snd].
    destruct Hcase as [-> | [[Hv Ht] | (Hv & messages & Hf & Hne & Hl)]].
    + rewrite (classify_null _ _ _ _ _ Hp). simpl. eauto.
    + rewrite (classify_verification _ _ _ _ _ _ Hp Hv), Ht. simpl. eauto.
    + assert (Hn : v <> JNull) by (intros ->; discriminate).
      destruct messages as [| m rest]; [contradiction |].
      rewrite (classify_telemetry _ _ _ _ _ _ Hp Hn Hv).
      destruct (new_Client (client_of env)) as [msg |] eqn:Hb.
      { rewrite (store_messages_client_throws _ _ _ _ _ _ _ _ Hf Hb). simpl. eauto. }
      destruct Hl as [Hl | Hl]; [contradiction |].
      rewrite (store_messages_batch _ _ _ _ _ _ _ Hf Hb).
      apply (for_of_outcome (client_of env) db coll (m :: rest) s) in Hl.
      destruct Hl as [e He]. unfold outcome in He.
      destruct (for_of (m :: rest) _ s) as [[o t] s']. simpl in He. subst o.
      simpl. eauto.
Qed.

(** *** The writes of a run *)

(** (X10) With the client built, the loop stops at the first message it
    cannot log about, with no rollback: the messages before it have been
    written (or tried), the
    offending message itself is passed to the store unless it is [null],
    the messages after it are never reached, and the handler throws. *)
Theorem batch_stops_at_unloggable_message env req secret db coll v pre m post s :
  authentic env req secret db coll ->
  new_Client (client_of env) = None ->
  JSON_parse (body req) = inl v ->
  is_verification (field v "event") = false ->
  field v "messages" = of_json (JArr (pre ++ m :: post)) ->
  forallb loggable pre = true ->
  loggable m = false ->
  handler env req s =
    (Throw (thrown_by m),
     Log "Signature verified successfully."
     :: Log ("Processing " +:+ nat_to_string (length (pre ++ m :: post)) +:+ " messages.")
     :: NewClient (client_of env)
     :: loop_events (client_of env) db coll s pre ++ aborted_events db coll m,
     store_step (client_of env) db coll
       (store_after (client_of env) db coll s (map document_of pre)) m) /\
  created (events (handler env req s)) =
    map (call_of db coll) pre ++ created (aborted_events db coll m).
Proof.
  intros Ha Hb Hp Hv Hf Hpre Hm.
  assert (Hn : v <> JNull) by (intros ->; discriminate).
  assert (Hrun : handler env req s =
    (Throw (thrown_by m),
     Log "Signature verified successfully."
     :: Log ("Processing " +:+ nat_to_string (length (pre ++ m :: post)) +:+ " messages.")
     :: NewClient (client_of env)
     :: loop_events (client_of env) db coll s pre ++ aborted_events db coll m,
     store_step (client_of env) db coll
       (store_after (client_of env) db coll s (map document_of pre)) m)).
  { rewrite (authentic_run env req secret db coll s Ha),
            (classify_telemetry _ _ _ _ _ _ Hp Hn Hv).
    destruct (pre ++ m :: post) as [| m0 rest] eqn:Hl;
      [destruct pre; discriminate |].
    rewrite (store_messages_batch _ _ _ _ _ _ _ Hf Hb). rewrite <- Hl.
    rewrite (for_of_stops _ _ _ _ _ _ _ Hpre Hm). reflexivity. }
  split; [exact Hrun |].
  rewrite Hrun. unfold events. cbn [fst snd created].
  rewrite created_app, created_loop_events. reflexivity.
Qed.

(** (C3, a failing input) A write that the store rejects, for a message
    whose [device_id] does not convert to a string: the catch block of line
    90 throws while it builds its error line, so the error is not logged,
    the messages after it are never attempted and the handler throws
    instead of answering 200.  The rejected call is the last event of the
    run. *)
Theorem rejected_write_escapes_catch env req secret db coll v pre m post msg s :
  authentic env req secret db coll ->
  new_Client (client_of env) = None ->
  JSON_parse (body req) = inl v ->
  is_verification (field v "event") = false ->
  field v "messages" = of_json (JArr (pre ++ m :: post)) ->
  forallb loggable pre = true ->
  m <> JNull ->
  to_text (field m "device_id") = None ->
  (createDocument (client_of env)
     (store_after (client_of env) db coll s (map document_of pre))
     db coll "unique()" (document_of m)).2 = Some msg ->
  handler env req s =
    (Throw (TypeError "Cannot convert object to primitive value"),
     Log "Signature verified successfully."
     :: Log ("Processing " +:+ nat_to_string (length (pre ++ m :: post)) +:+ " messages.")
     :: NewClient (client_of env)
     :: loop_events (client_of env) db coll s pre
        ++ [CreateDocument db coll "unique()" (document_of m)],
     (createDocument (client_of env)
        (store_after (client_of env) db coll s (map document_of pre))
        db coll "unique()" (document_of m)).1) /\
  created (events (handler env req s)) = map (call_of db coll) (pre ++ [m]) /\
  store_message (client_of env) db coll m
      (store_after (client_of env) db coll s (map document_of pre)) =
    (Throw (TypeError "Cannot convert object to primitive value"),
     [CreateDocument db coll "unique()" (document_of m)],
     (createDocument (client_of env)
        (store_after (client_of env) db coll s (map document_of pre))
        db coll "unique()" (document_of m)).1).
Proof.
  intros Ha Hb Hp Hv Hf Hpre Hm Hd Hfail.
  assert (Hn : v <> JNull) by (intros ->; discriminate).
  assert (Hl : loggable m = false).
  { destruct m; first [congruence | unfold loggable; rewrite Hd; reflexivity]. }
  assert (Ht : thrown_by m = TypeError "Cannot convert object to primitive value")
    by (destruct m; first [reflexivity | congruence]).
  assert (He : aborted_events db coll m = [CreateDocument db coll "unique()" (document_of m)])
    by (destruct m; first [reflexivity | congruence]).
  assert (Hs : forall s0, store_step (client_of env) db coll s0 m
               = (createDocument (client_of env) s0 db coll "unique()" (document_of m)).1)
    by (intros s0; destruct m; first [reflexivity | congruence]).
  assert (Hrun : handler env req s =
    (Throw (TypeError "Cannot convert object to primitive value"),
     Log "Signature verified successfully."
     :: Log ("Processing " +:+ nat_to_string (length (pre ++ m :: post)) +:+ " messages.")
     :: NewClient (client_of env)
     :: loop_events (client_of env) db coll s pre
        ++ [CreateDocument db coll "unique()" (document_of m)],
     (createDocument (client_of env)
        (store_after (client_of env) db coll s (map document_of pre))
        db coll "unique()" (document_of m)).1)).
  { rewrite (authentic_run env req secret db coll s Ha),
            (classify_telemetry _ _ _ _ _ _ Hp Hn Hv).
    destruct (pre ++ m :: post) as [| m0 rest] eqn:Hlist;
      [destruct pre; discriminate |].
    rewrite (store_messages_batch _ _ _ _ _ _ _ Hf Hb). rewrite <- Hlist.
    rewrite (for_of_stops _ _ _ _ _ _ _ Hpre Hl), Ht, He, Hs. reflexivity. }
  split; [exact Hrun | split].
  - rewrite Hrun. unfold events. cbn [fst snd created].
    rewrite created_app, created_loop_events, map_app. reflexivity.
  - rewrite (store_message_unloggable _ _ _ _ _ Hl), Ht, He, Hs. reflexivity.
Qed.

(** (X20) The Config/Env gate does not look at the client's three
    variables: on a configuration the SDK refuses, a batch through the
    three gates makes the handler throw what the SDK threw, after the
    "Processing" line and before any write; no response is sent, nothing
    is logged about the failure and the store is untouched. *)
Theorem refused_configuration_aborts_batch env req secret db coll v m rest msg s :
  authentic env req secret db coll ->
  new_Client (client_of env) = Some msg ->
  JSON_parse (body req) = inl v ->
  is_verification (field v "event") = false ->
  field v "messages" = of_json (JArr (m :: rest)) ->
  handler env req s =
    (Throw (ClientError msg),
     [Log "Signature verified successfully.";
      Log ("Processing " +:+ nat_to_string (length (m :: rest)) +:+ " messages.");
      NewClient (client_of env)], s) /\
  created (events (handler env req s)) = [] /\
  (forall text status, outcome (handler env req s) <> responds text status).
Proof.
  intros Ha Hb Hp Hv Hf.
  rewrite (refused_client_run env req secret db coll v m rest msg s Ha Hb Hp Hv Hf).
  split; [reflexivity | split; [reflexivity | discriminate]].
Qed.

Lemma take_app_exact {A} (l k : list A) : take (length l) (l ++ k) = l.
Proof. induction l as [| x l IH]; simpl; [destruct k; reflexivity | rewrite IH; reflexivity]. Qed.

Lemma take_app_one {A} (l : list A) x k : take (S (length l)) (l ++ x :: k) = l ++ [x].
Proof.
  induction l as [| y l IH]; simpl; [destruct k; reflexivity |].
  simpl in IH. rewrite IH. reflexivity.
Qed.

(** The calls of the loop are those of a prefix of the batch, in order. *)
Lemma for_of_created c db coll messages s :
  exists k,
    created (events (for_of messages (store_message c db coll) s))
      = map (call_of db coll) (take k messages).
Proof.
  destruct (forallb loggable messages) eqn:Hl.
  - exists (length messages). rewrite (for_of_loggable _ _ _ _ _ Hl).
    unfold events. cbn [fst snd]. rewrite created_loop_events, firstn_all. reflexivity.
  - destruct (first_unloggable messages Hl) as (pre & m & post & -> & Hpre & Hm).
    rewrite (for_of_stops _ _ _ _ _ _ _ Hpre Hm). unfold events. cbn [fst snd].
    rewrite created_app, created_loop_events.
    destruct m;
      [exists (length pre); rewrite take_app_exact; simpl; apply app_nil_r
      | exists (S (length pre)); rewrite take_app_one, map_app; reflexivity ..].
Qed.

Lemma apply_calls_app c s calls calls' :
  apply_calls c s (calls ++ calls') = apply_calls c (apply_calls c s calls) calls'.
Proof.
  revert s. induction calls as [| [[[db coll] id] d] rest IH]; intros s; [reflexivity |].
  simpl. apply IH.
Qed.

Lemma apply_calls_call_of c db coll messages : forall s,
  apply_calls c s (map (call_of db coll) messages)
    = store_after c db coll s (map document_of messages).
Proof.
  induction messages as [| m rest IH]; intros s; [reflexivity |]. simpl. apply IH.
Qed.

(** The loop changes the store by its calls and by nothing else. *)
Lemma for_of_store c db coll messages s :
  final_store (for_of messages (store_message c db coll) s)
    = apply_calls c s (created (events (for_of messages (store_message c db coll) s))).
Proof.
  destruct (forallb loggable messages) eqn:Hl.
  - rewrite (for_of_loggable _ _ _ _ _ Hl). unfold final_store, events. cbn [fst snd].
    rewrite created_loop_events, apply_calls_call_of. reflexivity.
  - destruct (first_unloggable messages Hl) as (pre & m & post & -> & Hpre & Hm).
    rewrite (for_of_stops _ _ _ _ _ _ _ Hpre Hm). unfold final_store, events.
    cbn [fst snd]. rewrite created_app, created_loop_events, apply_calls_app,
      apply_calls_call_of.
    destruct m; reflexivity.
Qed.

(** (X11) Every [createDocument] call of a run belongs to a request that
    passed the three gates and carried a batch: the calls are those of the
    first k messages of the batch, in order, each made once, on the
    configured database and collection, asking for a generated id. *)
Theorem writes_follow_the_batch env req s :
  created (events (handler env req s)) = [] \/
  exists secret db coll v messages k,
    authentic env req secret db coll /\ JSON_parse (body req) = inl v /\
    is_verification (field v "event") = false /\
    field v "messages" = of_json (JArr messages) /\
    created (events (handler env req s)) = map (call_of db coll) (take k messages).
Proof.
  pose proof (handler_handled env req s) as Hh.
  remember (handler env req s) as r eqn:Hr. clear Hr.
  destruct Hh as [Hg | ? ? ? Hc Hm | ? ? ? Hc Hm Hs | ? ? ? sig Hc Hm Hs Hd
                 | secret db coll r Ha Hcl];
    try (left; reflexivity).
  destruct Hcl as [msg Hp | Hp | v t Hp Hv Ht | v Hp Hv Ht | v Hp Hn Hv Hm
                  | v m rest msg' Hp Hv Hf Hb
                  | v m rest o t s' Hp Hv Hf Hb Hloop];
    try (left; reflexivity).
  right. destruct (for_of_created (client_of env) db coll (m :: rest) s) as [k Hk].
  rewrite Hloop in Hk. exists secret, db, coll, v, (m :: rest), k.
  repeat (split; [assumption |]). exact Hk.
Qed.

(** (X12) The store a run leaves is the store it found after the
    [createDocument] calls of the run, made in order: the handler changes
    the store through these calls and through nothing else, and a request
    that makes no call leaves the store as it was. *)
Theorem store_changes_only_by_calls env req s :
  final_store (handler env req s)
    = apply_calls (client_of env) s (created (events (handler env req s))).
Proof.
  pose proof (handler_handled env req s) as Hh.
  remember (handler env req s) as r eqn:Hr. clear Hr.
  destruct Hh as [Hg | ? ? ? Hc Hm | ? ? ? Hc Hm Hs | ? ? ? sig Hc Hm Hs Hd
                 | secret db coll r Ha Hcl];
    try reflexivity.
  destruct Hcl as [msg Hp | Hp | v t Hp Hv Ht | v Hp Hv Ht | v Hp Hn Hv Hm
                  | v m rest msg' Hp Hv Hf Hb
                  | v m rest o t s' Hp Hv Hf Hb Hloop];
    try reflexivity.
  pose proof (for_of_store (client_of env) db coll (m :: rest) s) as Hst.
  rewrite Hloop in Hst. exact Hst.
Qed.

Lemma no_client_filter t : Forall not_client t -> List.filter is_client t = [].
Proof.
  induction 1 as [| e t He Ht IH]; [reflexivity |].
  destruct e; simpl in *; [exact IH | exact IH | contradiction | exact IH].
Qed.

Lemma created_nil_no_call t t1 db coll id d t2 :
  created t = [] -> t <> t1 ++ CreateDocument db coll id d :: t2.
Proof.
  intros Hc ->. rewrite created_app in Hc. simpl in Hc.
  destruct (created t1); discriminate.
Qed.

(** (X13) A run builds the client at most once, and builds it before its
    first [createDocument] call. *)
Theorem client_built_once_before_writes env req s :
  (length (List.filter is_client (events (handler env req s))) <= 1)%nat /\
  forall t1 db coll id d t2,
    events (handler env req s) = t1 ++ CreateDocument db coll id d :: t2 ->
    In (NewClient (client_of env)) t1.
Proof.
  pose proof (handler_handled env req s) as Hh.
  remember (handler env req s) as r eqn:Hr. clear Hr.
  assert (Hnone : forall t : list event,
            created t = [] -> List.filter is_client t = [] ->
            (length (List.filter is_client t) <= 1)%nat /\
            forall t1 db coll id d t2,
              t = t1 ++ CreateDocument db coll id d :: t2 ->
              In (NewClient (client_of env)) t1).
  { intros t Hc Hf. rewrite Hf. split; [simpl; lia |].
    intros t1 db coll id d t2 Heq. destruct (created_nil_no_call _ _ _ _ _ _ _ Hc Heq). }
  destruct Hh as [Hg | ? ? ? Hc Hm | ? ? ? Hc Hm Hs | ? ? ? sig Hc Hm Hs Hd
                 | secret db coll r Ha Hcl];
    try (apply Hnone; reflexivity).
  destruct Hcl as [msg Hp | Hp | v t Hp Hv Ht | v Hp Hv Ht | v Hp Hn Hv Hm
                  | v m rest msg' Hp Hv Hf Hb
                  | v m rest o t s' Hp Hv Hf Hb Hloop];
    try (apply Hnone; reflexivity).
  { split; [simpl; lia |].
    intros t1 db' coll' id d t2 Heq.
    unfold events in Heq. cbn [fst snd] in Heq.
    exfalso. revert Heq. apply created_nil_no_call. reflexivity. }
  unfold events. cbn [fst snd].
  pose proof (for_of_no_client (client_of env) db coll (m :: rest) s) as Hno.
  rewrite Hloop in Hno. unfold events in Hno. cbn [fst snd] in Hno.
  split.
  - cbn [List.filter is_client]. rewrite (no_client_filter _ Hno). simpl. lia.
  - intros t1 db' coll' id d t2 Heq.
    destruct t1 as [| e1 [| e2 [| e3 t1]]]; try discriminate.
    injection Heq as _ _ <- _. simpl. auto.
Qed.

(** *** What the handler reads *)

Lemma classify_client_of env env' db coll text s :
  client_of env' = client_of env ->
  classify env' db coll text s = classify env db coll text s.
Proof.
  intros Hc. unfold classify, store_messages, new_client. rewrite Hc. reflexivity.
Qed.

(** (X14) The run depends on the environment through the six variables
    only, and on the request through its method, its body and the one
    header x-nrfcloud-signature: any other variable or header changes
    nothing. *)
Theorem handler_frame env env' req req' s :
  (forall k, In k (required_variables ++ appwrite_variables) -> env' !! k = env !! k) ->
  method req' = method req ->
  body req' = body req ->
  headers req' !! "x-nrfcloud-signature" = headers req !! "x-nrfcloud-signature" ->
  handler env' req' s = handler env req s.
Proof.
  intros He Hm Hb Hh.
  assert (Hc : client_of env' = client_of env).
  { unfold client_of. rewrite !He by (simpl; auto 10). reflexivity. }
  unfold handler. rewrite !He by (simpl; auto 10). rewrite Hm, Hb, Hh.
  destruct (if_truthy (env !! "NRFCLOUD_WEBHOOK_SECRET")) as [secret |]; [| reflexivity].
  destruct (if_truthy (env !! "DATABASE_ID")) as [db |]; [| reflexivity].
  destruct (if_truthy (env !! "COLLECTION_ID")) as [coll |]; [| reflexivity].
  destruct (negb (method req =? "POST")%string); [reflexivity |].
  destruct (if_truthy (headers req !! "x-nrfcloud-signature")) as [sig |];
    [| reflexivity].
  cbv zeta.
  destruct (negb (hex (hmac_sha256 secret (body req)) =? sig)%string); [reflexivity |].
  unfold bind, log, emit. rewrite (classify_client_of env env' _ _ _ _ Hc). reflexivity.
Qed.

(** (X15) A signature header that is there but empty is taken as missing:
    the answer is 401 "Unauthorized: Missing signature", not "Invalid
    signature", and no digest is logged. *)
Theorem empty_signature_header_is_missing env req secret db coll s :
  configured env secret db coll ->
  method req = "POST" ->
  headers req !! "x-nrfcloud-signature" = Some EmptyString ->
  handler env req s =
    (responds "Unauthorized: Missing signature" 401,
     [Error "Missing X-NRFCLOUD-SIGNATURE header. Rejecting request."], s).
Proof.
  intros Hc Hm Hh. rewrite (env_gate_passes env req secret db coll Hc).
  rewrite Hm, Hh. reflexivity.
Qed.

(** (X16) A signature that is not 64 characters of 0-9 and a-f is refused
    whatever the secret and the body: a digest sent in upper case, in
    base64 or with a prefix never verifies. *)
Theorem malformed_signature_refused env req secret db coll sig s :
  configured env secret db coll ->
  method req = "POST" ->
  present (headers req !! "x-nrfcloud-signature") sig ->
  String.length sig <> 64%nat \/
    forallb is_lower_hex (list_ascii_of_string sig) = false ->
  handler env req s =
    (responds "Unauthorized: Invalid signature" 401,
     [Error ("Signature mismatch. Calculated: " +:+
             hex (hmac_sha256 secret (body req)) +:+ ", Received: " +:+ sig)], s).
Proof.
  intros Hc Hm Hp Hbad.
  assert (Hne : hex (hmac_sha256 secret (body req)) <> sig).
  { intros <-. destruct Hbad as [Hlen | Hhex].
    - apply Hlen. rewrite hex_length, hmac_sha256_length. reflexivity.
    - rewrite hex_lowercase in Hhex. discriminate. }
  rewrite (env_gate_passes env req secret db coll Hc). rewrite Hm.
  apply if_truthy_present in Hp. rewrite Hp. cbv zeta.
  destruct (String.eqb_spec (hex (hmac_sha256 secret (body req))) sig);
    [contradiction | reflexivity].
Qed.

Lemma falsy_to_text v : truthy v = false -> exists d, to_text v = Some d.
Proof.
  destruct v as [| j]; simpl; [eauto |].
  destruct j as [| [] | n | x | l | o]; simpl; try discriminate; eauto.
Qed.

(** (X17) A message whose [device_id] is absent or falsy (the empty string,
    0, false, null) is written like any other; the line for a rejected
    write names it "unknown", while the line for a stored one prints the
    value itself, "undefined" when [device_id] is absent. *)
Theorem falsy_device_id_logging c db coll m s :
  m <> JNull ->
  truthy (field m "device_id") = false ->
  exists d,
    to_text (field m "device_id") = Some d /\
    (field m "device_id" = undefined -> d = "undefined") /\
    store_message c db coll m s =
      (Normal tt,
       CreateDocument db coll "unique()" (document_of m) ::
       match (createDocument c s db coll "unique()" (document_of m)).2 with
       | None => [Log ("Successfully stored message from device: " +:+ d)]
       | Some msg => [Error ("Database error for message from unknown: " +:+ msg)]
       end,
       (createDocument c s db coll "unique()" (document_of m)).1).
Proof.
  intros Hn Hf. destruct (falsy_to_text _ Hf) as [d Hd]. exists d.
  split; [exact Hd |]. split; [intros Hu; rewrite Hu in Hd; simpl in Hd; congruence |].
  assert (Hl : loggable m = true).
  { unfold loggable. rewrite Hd. destruct m; congruence. }
  rewrite (store_message_loggable c db coll m s Hl). unfold message_events.
  assert (Hlabel : device_label m = Some "unknown").
  { unfold device_label, or_else. rewrite Hf. reflexivity. }
  rewrite Hd, Hlabel. reflexivity.
Qed.

(** (X18) The error line of a refused signature carries the digest the
    handler computed, and that digest is the valid signature of the body:
    a POST of the same body with the logged value in the header passes the
    signature gate and is handed to the classifier. *)
Theorem mismatch_line_discloses_signature env req secret db coll sig s :
  configured env secret db coll ->
  method req = "POST" ->
  present (headers req !! "x-nrfcloud-signature") sig ->
  sig <> hex (hmac_sha256 secret (body req)) ->
  exists logged,
    events (handler env req s) =
      [Error ("Signature mismatch. Calculated: " +:+ logged +:+ ", Received: " +:+ sig)] /\
    forall req' s',
      method req' = "POST" ->
      body req' = body req ->
      headers req' !! "x-nrfcloud-signature" = Some logged ->
      handler env req' s' =
        (outcome (classify env db coll (body req) s'),
         Log "Signature verified successfully."
         :: events (classify env db coll (body req) s'),
         final_store (classify env db coll (body req) s')).
Proof.
  intros Hc Hm Hp Hne. exists (hex (hmac_sha256 secret (body req))). split.
  - rewrite (env_gate_passes env req secret db coll Hc). rewrite Hm.
    apply if_truthy_present in Hp. rewrite Hp. cbv zeta.
    destruct (String.eqb_spec (hex (hmac_sha256 secret (body req))) sig);
      [congruence | reflexivity].
  - intros req' s' Hm' Hb' Hh'.
    assert (Ha : authentic env req' secret db coll).
    { split; [exact Hc |]. split; [exact Hm' |]. rewrite Hb'. exact Hh'. }
    rewrite (authentic_run env req' secret db coll s' Ha), Hb'. reflexivity.
Qed.

End Properties.

(** ** Runs on the test platform

    Each theorem with hypotheses is applied to a concrete deployment and
    request, with the hypotheses checked by evaluation. *)

Ltac by_evaluation := vm_compute; solve [reflexivity | discriminate | tauto].

Lemma test_env_configured : configured test_env "s3cret" "db1" "telemetry".
Proof. repeat split; by_evaluation. Qed.

Lemma signed_post_authentic failing text :
  authentic (P := test_platform failing) test_env (signed_post text)
            "s3cret" "db1" "telemetry".
Proof.
  split; [exact test_env_configured |]. split; [reflexivity |].
  unfold signed_post. cbn [headers body hmac_sha256 test_platform].
  apply lookup_singleton_eq.
Qed.

Lemma empty_required_value_witness :
  handler (P := test_platform []) (<["DATABASE_ID" := EmptyString]> test_env)
          (signed_post batch_body) empty_store
    = env_rejection empty_store /\
  handler (P := test_platform []) (delete "DATABASE_ID" (<["DATABASE_ID" := EmptyString]> test_env))
          (signed_post batch_body) empty_store
    = env_rejection empty_store.
Proof.
  apply (empty_required_value_is_absent (P := test_platform [])).
  - simpl. auto.
  - by_evaluation.
Defined.

(** (C5, as stated: refuted) A GET sent to a deployment with no environment
    is answered 500 with an error line, not 405. *)
Lemma method_gate_counterexample :
  method get_request <> "POST" /\
  handler (P := test_platform []) ∅ get_request empty_store = env_rejection empty_store /\
  outcome (handler (P := test_platform []) ∅ get_request empty_store)
    <> responds "Method Not Allowed" 405 /\
  events (handler (P := test_platform []) ∅ get_request empty_store) <> [].
Proof. repeat split; by_evaluation. Qed.

Lemma method_gate_witness :
  method get_request <> "POST" /\
  handler (P := test_platform []) test_env get_request empty_store
    = (responds "Method Not Allowed" 405, [], empty_store).
Proof.
  assert (Hm : method get_request <> "POST") by discriminate.
  split; [exact Hm |].
  apply (proj1 (method_gate_behind_env_gate (P := test_platform [])
                  test_env get_request empty_store Hm)
           "s3cret" "db1" "telemetry").
  exact test_env_configured.
Defined.

Lemma uppercase_signature_witness :
  handler (P := test_platform []) test_env (uppercase_post batch_body) empty_store =
    (responds "Unauthorized: Missing signature" 401,
     [Error "Missing X-NRFCLOUD-SIGNATURE header. Rejecting request."], empty_store).
Proof.
  apply (signature_read_under_lowercase_key (P := test_platform [])
           test_env (uppercase_post batch_body) "s3cret" "db1" "telemetry").
  - exact test_env_configured.
  - reflexivity.
  - by_evaluation.
Defined.


Lemma forged_signature_witness :
  handler (P := test_platform []) test_env (forged_post batch_body) empty_store
    = (responds "Unauthorized: Invalid signature" 401,
       [Error ("Signature mismatch. Calculated: " +:+ hex (test_hmac "s3cret" batch_body)
               +:+ ", Received: 00ff")], empty_store) /\
  (forall text,
     outcome (handler (P := test_platform []) test_env (signed_post batch_body) empty_store)
       <> responds text 401).
Proof.
  split.
  - assert (Hp : present (headers (forged_post batch_body) !! "x-nrfcloud-signature") "00ff").
    { split; [apply lookup_singleton_eq | discriminate]. }
    destruct (signature_gate_decides (P := test_platform [])
                test_env (forged_post batch_body) "s3cret" "db1" "telemetry" "00ff"
                empty_store test_env_configured eq_refl Hp) as (_ & Hne & _).
    apply Hne. by_evaluation.
  - assert (Hp : present (headers (signed_post batch_body) !! "x-nrfcloud-signature")
                         (hex (test_hmac "s3cret" batch_body))).
    { split; [apply lookup_singleton_eq | by_evaluation]. }
    destruct (signature_gate_decides (P := test_platform [])
                test_env (signed_post batch_body) "s3cret" "db1" "telemetry"
                (hex (test_hmac "s3cret" batch_body))
                empty_store test_env_configured eq_refl Hp) as (_ & _ & Heq).
    apply Heq. reflexivity.
Defined.

Lemma verification_witness :
  handler (P := test_platform []) test_env (signed_post verification_body) empty_store =
    (responds "Verification request acknowledged" 200,
     [Log "Signature verified successfully.";
      Log "Received verification request with token: T. Please confirm in nRF Cloud portal."],
     empty_store) /\
  created (events (handler (P := test_platform []) test_env
                     (signed_post verification_body) empty_store)) = [].
Proof.
  apply (verification_acknowledged (P := test_platform [])
           test_env (signed_post verification_body) "s3cret" "db1" "telemetry"
           (JObj [("event", JStr "verification"); ("token", JStr "T")]%string) "T").
  - apply signed_post_authentic.
  - by_evaluation.
  - reflexivity.
  - reflexivity.
Defined.

Lemma null_payload_witness :
  handler (P := test_platform []) test_env (signed_post "null") empty_store =
    (Throw (TypeError "Cannot read properties of null (reading 'event')"),
     [Log "Signature verified successfully."], empty_store).
Proof.
  apply (null_payload_throws (P := test_platform [])
           test_env (signed_post "null") "s3cret" "db1" "telemetry").
  - apply signed_post_authentic.
  - by_evaluation.
Defined.

Lemma telemetry_batch_witness :
  outcome (handler (P := test_platform []) test_env (signed_post batch_body) empty_store)
    = responds "Webhook processing complete" 200 /\
  created (events (handler (P := test_platform []) test_env
                     (signed_post batch_body) empty_store))
    = map (call_of (P := test_platform []) "db1" "telemetry") batch_messages /\
  length (created (events (handler (P := test_platform []) test_env
                             (signed_post batch_body) empty_store))) = 2%nat.
Proof.
  destruct (telemetry_batch_stored (P := test_platform [])
              test_env (signed_post batch_body) "s3cret" "db1" "telemetry"
              batch_payload batch_messages empty_store) as (Hrun & Hcalls & Hlen & _).
  - apply signed_post_authentic.
  - by_evaluation.
  - by_evaluation.
  - reflexivity.
  - reflexivity.
  - simpl. lia.
  - reflexivity.
  - repeat split.
  - split; [rewrite Hrun; reflexivity | split; [exact Hcalls | exact Hlen]].
Defined.

Lemma write_failure_witness :
  outcome (handler (P := test_platform [0%nat]) test_env (signed_post batch_body) empty_store)
    = responds "Webhook processing complete" 200 /\
  length (created (events (handler (P := test_platform [0%nat]) test_env
                             (signed_post batch_body) empty_store))) = 2%nat /\
  In (Error "Database error for message from d1: Server Error")
     (events (handler (P := test_platform [0%nat]) test_env
                (signed_post batch_body) empty_store)).
Proof.
  destruct (write_failures_isolated (P := test_platform [0%nat])
              test_env (signed_post batch_body) "s3cret" "db1" "telemetry"
              batch_payload batch_messages empty_store) as (Hout & Hcalls & Herr).
  - apply signed_post_authentic.
  - by_evaluation.
  - by_evaluation.
  - reflexivity.
  - reflexivity.
  - simpl. lia.
  - reflexivity.
  - split; [exact Hout | split; [rewrite Hcalls; reflexivity |]].
    destruct (Herr 0%nat first_message "Server Error" eq_refl eq_refl)
      as (label & _ & Hin & _ & Hd).
    assert (Hl : label = "d1") by (apply Hd; [reflexivity | discriminate]).
    rewrite Hl in Hin. exact Hin.
Defined.

Lemma null_message_witness :
  exists msg t s',
    handler (P := test_platform []) test_env (signed_post null_message_body) empty_store
      = (Throw (TypeError msg), t, s').
Proof.
  destruct (null_message_throws (P := test_platform [])
              test_env (signed_post null_message_body) "s3cret" "db1" "telemetry"
              (JObj [("messages", JArr [JNull])]%string) [JNull] empty_store)
    as (e & t & s' & Hrun & Hkind).
  - apply signed_post_authentic.
  - by_evaluation.
  - reflexivity.
  - reflexivity.
  - simpl. auto.
  - destruct Hkind as [msg ->]; [by_evaluation |]. exists msg, t, s'. exact Hrun.
Defined.

Lemma no_messages_witness :
  handler (P := test_platform []) test_env (signed_post empty_batch_body) empty_store =
    (responds "Webhook processing complete" 200,
     [Log "Signature verified successfully.";
      Log "Payload contains no messages or is of an unexpected format."], empty_store).
Proof.
  apply (no_messages_no_writes (P := test_platform [])
           test_env (signed_post empty_batch_body) "s3cret" "db1" "telemetry"
           (JObj [("messages", JArr [])]%string)).
  - apply signed_post_authentic.
  - by_evaluation.
  - discriminate.
  - reflexivity.
  - reflexivity.
Defined.

Lemma invalid_json_witness :
  handler (P := test_platform []) test_env (signed_post "{oops") empty_store =
    (responds "Invalid JSON" 400,
     [Log "Signature verified successfully.";
      Error "Invalid JSON payload: Unexpected token"], empty_store).
Proof.
  apply (invalid_json_rejected (P := test_platform [])
           test_env (signed_post "{oops") "s3cret" "db1" "telemetry" "Unexpected token").
  - apply signed_post_authentic.
  - by_evaluation.
Defined.

Lemma replay_witness :
  created (events (handler (P := test_platform []) test_env (signed_post batch_body)
                     {| calls := 2; documents := map (document_of (P := test_platform [])) batch_messages |}))
  = created (events (handler (P := test_platform []) test_env (signed_post batch_body)
                       empty_store)).
Proof.
  refine (proj1 (replay_repeats_writes (P := test_platform [])
                   test_env (signed_post batch_body) "s3cret" "db1" "telemetry"
                   batch_payload batch_messages _ _ _ _ _ _ _ _)).
  - apply signed_post_authentic.
  - by_evaluation.
  - reflexivity.
  - reflexivity.
  - simpl. lia.
  - reflexivity.
Defined.

Lemma unsigned_request_witness :
  created (events (handler (P := test_platform []) test_env (uppercase_post batch_body)
                     empty_store)) = [] /\
  final_store (handler (P := test_platform []) test_env (uppercase_post batch_body)
                 empty_store) = empty_store.
Proof.
  apply (unsigned_request_writes_nothing (P := test_platform [])). by_evaluation.
Defined.

Lemma shadowed_token_witness :
  handler (P := test_platform []) test_env (signed_post shadowed_token_body) empty_store =
    (Throw (TypeError "Cannot convert object to primitive value"),
     [Log "Signature verified successfully."], empty_store).
Proof.
  apply (shadowed_token_throws (P := test_platform [])
           test_env (signed_post shadowed_token_body) "s3cret" "db1" "telemetry"
           (JObj [("event", JStr "verification");
                  ("token", JObj [("toString", JNum (double_of_Z 0))])]%string)
           (JObj [("toString", JNum (double_of_Z 0))]%string)).
  - apply signed_post_authentic.
  - by_evaluation.
  - reflexivity.
  - reflexivity.
  - reflexivity.
Defined.

(** The comparison is by exact string equality: the right digest written in
    upper case is refused. *)
Example uppercase_digest_refused :
  hex (test_hmac "s3cret" batch_body)
    = "bf1469be1368bd1267bc1166bb1065ba0f64b90e63b80d62b70c61b60b60b50a" /\
  outcome (handler (P := test_platform []) test_env
             {| method := "POST";
                headers := {["x-nrfcloud-signature" :=
                  "BF1469BE1368BD1267BC1166BB1065BA0F64B90E63B80D62B70C61B60B60B50A"]};
                body := batch_body |} empty_store)
    = responds "Unauthorized: Invalid signature" 401.
Proof. split; by_evaluation. Qed.

Lemma broken_batch_witness :
  handler (P := test_platform []) test_env (signed_post broken_batch_body) empty_store =
    (Throw (TypeError "Cannot read properties of null (reading 'device_id')"),
     [Log "Signature verified successfully.";
      Log "Processing 3 messages.";
      NewClient (client_of test_env);
      CreateDocument "db1" "telemetry" "unique()"
        (document_of (P := test_platform []) first_message);
      Log "Successfully stored message from device: d1"],
     {| calls := 1; documents := [document_of (P := test_platform []) first_message] |}) /\
  created (events (handler (P := test_platform []) test_env
                     (signed_post broken_batch_body) empty_store)) =
    [call_of (P := test_platform []) "db1" "telemetry" first_message].
Proof.
  apply (batch_stops_at_unloggable_message (P := test_platform [])
           test_env (signed_post broken_batch_body) "s3cret" "db1" "telemetry"
           broken_batch_payload [first_message] JNull [second_message] empty_store).
  - apply signed_post_authentic.
  - by_evaluation.
  - by_evaluation.
  - reflexivity.
  - reflexivity.
  - reflexivity.
  - reflexivity.
Defined.

Lemma frame_witness :
  handler (P := test_platform []) noisy_env (noisy_post batch_body) empty_store =
  handler (P := test_platform []) test_env (signed_post batch_body) empty_store.
Proof.
  apply (handler_frame (P := test_platform [])).
  - intros k Hk. simpl in Hk.
    repeat (destruct Hk as [<- | Hk]; [reflexivity |]). destruct Hk.
  - reflexivity.
  - reflexivity.
  - by_evaluation.
Defined.

Lemma blank_signature_witness :
  handler (P := test_platform []) test_env (blank_signature_post batch_body) empty_store =
    (responds "Unauthorized: Missing signature" 401,
     [Error "Missing X-NRFCLOUD-SIGNATURE header. Rejecting request."], empty_store).
Proof.
  apply (empty_signature_header_is_missing (P := test_platform [])
           test_env (blank_signature_post batch_body) "s3cret" "db1" "telemetry").
  - exact test_env_configured.
  - reflexivity.
  - by_evaluation.
Defined.

Lemma malformed_signature_witness :
  handler (P := test_platform []) test_env uppercase_digest_post empty_store =
    (responds "Unauthorized: Invalid signature" 401,
     [Error ("Signature mismatch. Calculated: " +:+ hex (test_hmac "s3cret" batch_body)
             +:+ ", Received: BF1469BE1368BD1267BC1166BB1065BA0F64B90E63B80D62B70C61B60B60B50A")],
     empty_store).
Proof.
  apply (malformed_signature_refused (P := test_platform [])
           test_env uppercase_digest_post "s3cret" "db1" "telemetry"
           "BF1469BE1368BD1267BC1166BB1065BA0F64B90E63B80D62B70C61B60B60B50A").
  - exact test_env_configured.
  - reflexivity.
  - split; [apply lookup_singleton_eq | discriminate].
  - right. by_evaluation.
Defined.

Lemma falsy_device_id_witness :
  exists d,
    d = "undefined" /\
    store_message (P := test_platform [0%nat]) (client_of test_env) "db1" "telemetry"
                  (JObj []) empty_store =
      (Normal tt,
       [CreateDocument "db1" "telemetry" "unique()"
          (document_of (P := test_platform [0%nat]) (JObj []));
        Error "Database error for message from unknown: Server Error"],
       {| calls := 1; documents := [] |}).
Proof.
  destruct (falsy_device_id_logging (P := test_platform [0%nat])
              (client_of test_env) "db1" "telemetry" (JObj []) empty_store)
    as (d & _ & Hd & Hrun).
  - discriminate.
  - reflexivity.
  - exists d. split; [apply Hd; reflexivity |]. exact Hrun.
Defined.

Lemma mismatch_line_witness :
  exists logged,
    events (handler (P := test_platform []) test_env (forged_post batch_body) empty_store) =
      [Error ("Signature mismatch. Calculated: " +:+ logged +:+ ", Received: 00ff")] /\
    forall req' s',
      method req' = "POST" ->
      body req' = batch_body ->
      headers req' !! "x-nrfcloud-signature" = Some logged ->
      handler (P := test_platform []) test_env req' s' =
        (outcome (classify (P := test_platform []) test_env "db1" "telemetry" batch_body s'),
         Log "Signature verified successfully."
         :: events (classify (P := test_platform []) test_env "db1" "telemetry" batch_body s'),
         final_store (classify (P := test_platform []) test_env "db1" "telemetry" batch_body s')).
Proof.
  apply (mismatch_line_discloses_signature (P := test_platform [])
           test_env (forged_post batch_body) "s3cret" "db1" "telemetry" "00ff"
           empty_store).
  - exact test_env_configured.
  - reflexivity.
  - split; [apply lookup_singleton_eq | discriminate].
  - by_evaluation.
Defined.

Lemma bare_env_configured : configured bare_env "s3cret" "db1" "telemetry".
Proof. repeat split; by_evaluation. Qed.

Lemma bare_env_authentic failing text :
  authentic (P := test_platform failing) bare_env (signed_post text)
            "s3cret" "db1" "telemetry".
Proof.
  split; [exact bare_env_configured |]. split; [reflexivity |].
  unfold signed_post. cbn [headers body hmac_sha256 test_platform].
  apply lookup_singleton_eq.
Qed.

(** (C2, as stated: refuted) A deployment that sets the three required
    values and none of the client's: the signed batch of two well-formed
    messages passes every gate and each write would resolve, yet the SDK
    refuses the endpoint, the handler throws before the first write and no
    response is sent. *)
Lemma telemetry_batch_counterexample :
  authentic (P := test_platform []) bare_env (signed_post batch_body)
            "s3cret" "db1" "telemetry" /\
  JSON_parse (Platform := test_platform []) batch_body = inl batch_payload /\
  field batch_payload "messages" = of_json (JArr batch_messages) /\
  length batch_messages = 2%nat /\
  forallb well_formed batch_messages = true /\
  writes_succeed (P := test_platform []) (client_of bare_env) "db1" "telemetry" empty_store
    (map (document_of (P := test_platform [])) batch_messages) /\
  handler (P := test_platform []) bare_env (signed_post batch_body) empty_store =
    (Throw (ClientError "Endpoint must be a valid string"),
     [Log "Signature verified successfully.";
      Log "Processing 2 messages.";
      NewClient (client_of bare_env)], empty_store) /\
  created (events (handler (P := test_platform []) bare_env
                     (signed_post batch_body) empty_store)) = [] /\
  outcome (handler (P := test_platform []) bare_env (signed_post batch_body) empty_store)
    <> responds "Webhook processing complete" 200.
Proof.
  split; [apply bare_env_authentic |].
  repeat split; by_evaluation.
Qed.

Lemma rejected_write_witness :
  handler (P := test_platform [0%nat]) test_env (signed_post unprintable_batch_body)
          empty_store =
    (Throw (TypeError "Cannot convert object to primitive value"),
     [Log "Signature verified successfully.";
      Log "Processing 2 messages.";
      NewClient (client_of test_env);
      CreateDocument "db1" "telemetry" "unique()"
        (document_of (P := test_platform [0%nat]) unprintable_message)],
     {| calls := 1; documents := [] |}) /\
  created (events (handler (P := test_platform [0%nat]) test_env
                     (signed_post unprintable_batch_body) empty_store)) =
    [call_of (P := test_platform [0%nat]) "db1" "telemetry" unprintable_message].
Proof.
  destruct (rejected_write_escapes_catch (P := test_platform [0%nat])
              test_env (signed_post unprintable_batch_body) "s3cret" "db1" "telemetry"
              unprintable_batch_payload [] unprintable_message [second_message]
              "Server Error" empty_store) as (Hrun & Hcalls & _).
  - apply signed_post_authentic.
  - by_evaluation.
  - by_evaluation.
  - reflexivity.
  - reflexivity.
  - reflexivity.
  - discriminate.
  - reflexivity.
  - reflexivity.
  - split; [exact Hrun | exact Hcalls].
Defined.

Lemma refused_configuration_witness :
  handler (P := test_platform []) bare_env (signed_post batch_body) empty_store =
    (Throw (ClientError "Endpoint must be a valid string"),
     [Log "Signature verified successfully.";
      Log "Processing 2 messages.";
      NewClient (client_of bare_env)], empty_store) /\
  created (events (handler (P := test_platform []) bare_env
                     (signed_post batch_body) empty_store)) = [].
Proof.
  destruct (refused_configuration_aborts_batch (P := test_platform [])
              bare_env (signed_post batch_body) "s3cret" "db1" "telemetry"
              batch_payload first_message [second_message]
              "Endpoint must be a valid string" empty_store) as (Hrun & Hcalls & _).
  - apply bare_env_authentic.
  - by_evaluation.
  - by_evaluation.
  - reflexivity.
  - reflexivity.
  - split; [exact Hrun | exact Hcalls].
Defined.
